(** * Backend test orchestration: runner and verification scripts

    A shallow embedding of [run_backend_tests.py] (class
    [BackendTestRunner] and its [main]) and of [verify_backend_tests.py]
    (the eight environment checks and their [main]).

    Both scripts are straight-line orchestration code over the file
    system, the console and child processes.  They are embedded in a
    state-and-exception monad over a [world]; everything the scripts
    obtain from outside (child processes, the interpreter version, the
    import system, the network, SQLite) is an oracle of an environment
    record, so that every statement below quantifies over all behaviours
    of those collaborators. *)

From Stdlib Require Import ZArith List Bool Lia.
From stdpp Require Import gmap strings pretty.

(** ** Python runtime: exceptions, the world, the monad *)

Module Py.

(** The exception classes the two scripts can meet.  [subclass] is
    Python's class hierarchy restricted to them; [Exception_] is the
    root of all ordinary errors. *)
Inductive error_class :=
| Exception_
| OSError
| FileNotFoundError
| PermissionError
| ImportError
| ModuleNotFoundError
| RequestException
| SyntaxError
| ValueError
| UnboundLocalError
| SubprocessError
| CalledProcessError
| TimeoutExpired
| sqlite3_Error.

Definition error_class_eqb (a b : error_class) : bool :=
  match a, b with
  | Exception_, Exception_ | OSError, OSError
  | FileNotFoundError, FileNotFoundError | PermissionError, PermissionError
  | ImportError, ImportError | ModuleNotFoundError, ModuleNotFoundError
  | RequestException, RequestException | SyntaxError, SyntaxError
  | ValueError, ValueError | UnboundLocalError, UnboundLocalError
  | SubprocessError, SubprocessError
  | CalledProcessError, CalledProcessError
  | TimeoutExpired, TimeoutExpired | sqlite3_Error, sqlite3_Error => true
  | _, _ => false
  end.

(** Direct base class ([Exception_] is the root). *)
Definition base_class (c : error_class) : error_class :=
  match c with
  | FileNotFoundError | PermissionError | RequestException => OSError
  | ModuleNotFoundError => ImportError
  | CalledProcessError | TimeoutExpired => SubprocessError
  | _ => Exception_
  end.

(** [subclass c d]: [c] is [d] or derives from it (the hierarchy is at
    most three levels deep). *)
Definition subclass (c d : error_class) : bool :=
  error_class_eqb c d
  || error_class_eqb (base_class c) d
  || error_class_eqb (base_class (base_class c)) d.

(** An error object: its class and the text [str(e)] renders. *)
Record error := Error { cls : error_class; msg : string }.

Definition isinstance (e : error) (c : error_class) : bool := subclass (cls e) c.

(** [BaseException]: the two non-error exits and the ordinary errors. *)
Inductive exn :=
| KeyboardInterrupt
| SystemExit (code : Z)
| Exception (e : error).

(** The observable world.  [fs] is the set of paths that exist,
    [stdout] the arguments of the [print] calls so far, [clock] the wall
    clock in hundredths of a second, and [launched] a log of the
    argument vectors handed to [subprocess.run] (kept only to state
    which commands were attempted). *)
Record world := World {
  fs : gset string;
  stdout : list string;
  clock : N;
  launched : list (list string)
}.

Inductive result (A : Type) :=
| Ret (a : A)
| Raise (e : exn).
Arguments Ret {A} a.
Arguments Raise {A} e.

(** A computation may change the world and then either return or
    raise; the changes made before a raise persist. *)
Definition M (A : Type) : Type := world → result A * world.

#[global] Instance M_ret : MRet M := λ A a w, (Ret a, w).
#[global] Instance M_bind : MBind M := λ A B f m w,
  match m w with
  | (Ret a, w') => f a w'
  | (Raise e, w') => (Raise e, w')
  end.

#[global] Instance M_fmap : FMap M := λ A B f m w,
  match m w with
  | (Ret a, w') => (Ret (f a), w')
  | (Raise e, w') => (Raise e, w')
  end.

Definition raise {A} (e : exn) : M A := λ w, (Raise e, w).

(** [try: body except <h>: ...]: [h e] is the handler selected for [e],
    or [None] when no [except] clause matches and [e] propagates. *)
Definition try_except {A} (body : M A) (h : exn → option (M A)) : M A := λ w,
  match body w with
  | (Ret a, w') => (Ret a, w')
  | (Raise e, w') =>
      match h e with
      | Some k => k w'
      | None => (Raise e, w')
      end
  end.

Definition print (s : string) : M unit := λ w,
  (Ret tt, World (fs w) (stdout w ++ [s]) (clock w) (launched w)).

Definition time_time : M N := λ w, (Ret (clock w), w).

Definition path_exists (p : string) : M bool := λ w,
  (Ret (bool_decide (p ∈ fs w)), w).

Definition sys_exit {A} (code : Z) : M A := raise (SystemExit code).

(** [for x in l: body] *)
Fixpoint for_each {A} (l : list A) (body : A → M unit) : M unit :=
  match l with
  | [] => mret tt
  | x :: l' => body x ;; for_each l' body
  end.

(** A [for] loop that updates one local variable, [s]. *)
Fixpoint for_fold {A S} (l : list A) (body : A → S → M S) (s : S) : M S :=
  match l with
  | [] => mret s
  | x :: l' => s' ← body x s; for_fold l' body s'
  end.

Definition LF : string := String (Ascii.ascii_of_nat 10) EmptyString.

Fixpoint str_mul (s : string) (n : nat) : string :=
  match n with
  | O => EmptyString
  | S n' => s +:+ str_mul s n'
  end.

(** [Path / name] *)
Definition path_join (dir name : string) : string := dir +:+ "/" +:+ name.

(** [f"{x:.2f}"] for a duration held in hundredths of a second. *)
Definition fmt_2f (cs : N) : string :=
  let frac := (cs mod 100)%N in
  pretty (cs / 100)%N +:+ "." +:+
  (if (frac <? 10)%N then "0" else EmptyString) +:+ pretty frac.

Definition traceback : string := "Traceback (most recent call last):".

(** What the interpreter does with the outcome of the [__main__] block:
    a normal end exits 0, [SystemExit] exits with its code and prints
    nothing, an unhandled error prints a stack trace and exits 1, an
    unhandled interrupt prints a stack trace and exits 130. *)
Definition run_process (m : M unit) (w : world) : Z * world :=
  match m w with
  | (Ret _, w') => (0%Z, w')
  | (Raise (SystemExit c), w') => (c, w')
  | (Raise (Exception e), w') => (1%Z, snd (print traceback w'))
  | (Raise KeyboardInterrupt, w') => (130%Z, snd (print traceback w'))
  end.

End Py.
Import Py.

(** ** [run_backend_tests.py] *)

Module Runner.

(** Why the operating system could not start a command. *)
Inductive launch_error :=
| NotFound
| NotPermitted
| OtherOS.

Definition launch_exception (l : launch_error) : error :=
  match l with
  | NotFound => Error FileNotFoundError "[Errno 2] No such file or directory"
  | NotPermitted => Error PermissionError "[Errno 13] Permission denied"
  | OtherOS => Error OSError "[Errno 8] Exec format error"
  end.

(** What became of the command given to [subprocess.run]: it ran and
    exited with a return code, or it could not be started. *)
Inductive child_result :=
| Exited (returncode : Z)
| CannotStart (l : launch_error).

(** What the parent sees while it waits: the child's result, or a
    keyboard interrupt delivered to the parent (Ctrl-C). *)
Inductive wait_result :=
| Finished (r : child_result)
| Interrupted.

(** One [subprocess.run] call as the environment decides it: the
    outcome, the time that passed, the paths the child created (they
    exist when the parent stops waiting) and the paths it deleted. *)
Record child := Child {
  outcome : wait_result;
  elapsed : N;
  written : list string;
  removed : list string
}.

(** The paths that exist once a child that was started is over, given
    those that existed when it started. *)
Definition files_after (c : child) (files : gset string) : gset string :=
  files ∖ list_to_set (removed c) ∪ list_to_set (written c).

(** The same for a command handed to [subprocess.run]: a command that
    cannot be started touches nothing. *)
Definition files_left (c : child) (files : gset string) : gset string :=
  match outcome c with
  | Finished (CannotStart _) => files
  | _ => files_after c files
  end.

Record env := Env {
  base_dir : string;               (* Path(__file__).parent *)
  spawn : list string → child      (* the child run for a command *)
}.

(** [argparse]'s namespace for the six flags of the mutually exclusive,
    required group. *)
Record Namespace := Args {
  api : bool;
  database : bool;
  unit_ : bool;
  integration : bool;
  security : bool;
  all : bool
}.

Definition rule : string := str_mul "=" 50.

Section WithEnv.
Variable E : env.

Definition log_launch (command : list string) : M unit := λ w,
  (Ret tt, World (fs w) (stdout w) (clock w) (launched w ++ [command])).

Definition child_effect (c : child) : M unit := λ w,
  (Ret tt, World (files_after c (fs w)) (stdout w)
                 (clock w + elapsed c) (launched w)).

(** [subprocess.run(command, check=True, cwd=self.base_dir)]: the
    child's output goes to the inherited streams; a non-zero return code
    raises [CalledProcessError], a command that cannot be started raises
    the operating system's error. *)
Definition subprocess_run (command : list string) : M unit :=
  log_launch command ;;
  let c := spawn E command in
  match outcome c with
  | Finished (CannotStart l) => raise (Exception (launch_exception l))
  | Finished (Exited rc) =>
      child_effect c ;;
      if (rc =? 0)%Z then mret tt
      else raise (Exception (Error CalledProcessError
             ("Command returned non-zero exit status " +:+ pretty rc)))
  | Interrupted => child_effect c ;; raise KeyboardInterrupt
  end.

Definition reports_dir : string := path_join (base_dir E) "reports".

Definition mkdir_exist_ok (p : string) : M unit := λ w,
  (Ret tt, World (fs w ∪ {[p]}) (stdout w) (clock w) (launched w)).

(** [BackendTestRunner.__init__]: [self.reports_dir.mkdir(exist_ok=True)]
    (a directory that cannot be created is not modelled). *)
Definition init : M unit := mkdir_exist_ok reports_dir.

Definition run_command (command : list string) (description : string) : M bool :=
  print (LF +:+ rule) ;;
  print ("Running: " +:+ description) ;;
  print rule ;;
  start_time ← time_time;
  try_except
    (subprocess_run command ;;
     end_time ← time_time;
     print ("✅ Completed in " +:+ fmt_2f (end_time - start_time) +:+ "s") ;;
     mret true)
    (λ x, match x with
          | Exception e =>
              if isinstance e CalledProcessError then
                Some (end_time ← time_time;
                      print ("❌ Failed in " +:+ fmt_2f (end_time - start_time) +:+ "s") ;;
                      mret false)
              else None
          | _ => None
          end).

Definition api_command : list string :=
  ["pytest"; "tests/backend/blackbox/test_api_simple.py"; "-v";
   "--html=reports/api-tests.html"; "--self-contained-html"].

Definition run_api_tests : M bool :=
  run_command api_command "API Black Box Tests".

Definition database_command : list string :=
  ["pytest"; "tests/backend/blackbox/test_database_simple.py"; "-v";
   "--html=reports/database-tests.html"; "--self-contained-html"].

Definition run_database_tests : M bool :=
  run_command database_command "Database Tests with Factory Boy".

Definition unit_command : list string :=
  ["pytest"; "tests/backend/whitebox/test_unit_simple.py"; "-v";
   "--cov=tests/backend/whitebox"; "--cov-report=html:reports/coverage";
   "--html=reports/unit-tests.html"; "--self-contained-html"].

Definition run_unit_tests : M bool :=
  run_command unit_command "Unit Tests with Coverage".

Definition integration_command : list string :=
  ["pytest"; "tests/backend/test_integration_simple.py"; "-v";
   "--html=reports/integration-tests.html"; "--self-contained-html"].

Definition run_integration_tests : M bool :=
  run_command integration_command "Integration Tests".

Definition all_command : list string :=
  ["pytest"; "tests/backend/"; "-v"; "--cov=tests/backend";
   "--cov-report=html:reports/full-coverage"; "--cov-report=term-missing";
   "--html=reports/all-backend-tests.html"; "--self-contained-html"].

Definition run_all_tests : M bool :=
  run_command all_command "All Backend Tests".

Definition bandit_command : list string :=
  ["bandit"; "-r"; "tests/backend/"; "-f"; "txt"].

Definition safety_command : list string := ["safety"; "check"].

Definition security_commands : list (list string * string) :=
  [(bandit_command, "Security Scan");
   (safety_command, "Dependency Security Check")].

Definition run_security_scan : M bool :=
  for_fold security_commands
    (λ '(command, description) success,
       ok ← run_command command description;
       mret (if negb ok then false else success))
    true.

Definition reports : list (string * string) :=
  [("api-tests.html", "API Tests");
   ("database-tests.html", "Database Tests");
   ("unit-tests.html", "Unit Tests");
   ("integration-tests.html", "Integration Tests");
   ("all-backend-tests.html", "Complete Test Suite")].

Definition coverage_path : string :=
  path_join (path_join reports_dir "full-coverage") "index.html".

Definition summary_banner : string := "BACKEND TESTING SUMMARY".

(** The line [generate_summary] prints for one report entry. *)
Definition report_line (present : bool) (description filepath : string) : string :=
  "  " +:+ (if present then "✅" else "❌") +:+ " " +:+ description
       +:+ ": " +:+ filepath.

Definition coverage_line : string :=
  LF +:+ "📈 Coverage Report: " +:+ coverage_path.

Definition tools_used : list string :=
  [LF +:+ "🔧 Tools Used:";
   "  • pytest: Test framework";
   "  • Factory Boy: Test data generation";
   "  • Responses: HTTP mocking";
   "  • pytest-mock: Function mocking";
   "  • pytest-cov: Code coverage";
   "  • Bandit: Security scanning"].

Definition generate_summary : M unit :=
  print (LF +:+ rule) ;;
  print summary_banner ;;
  print rule ;;
  print (LF +:+ "📊 Test Reports:") ;;
  for_each reports
    (λ '(filename, description),
       let filepath := path_join reports_dir filename in
       present ← path_exists filepath;
       print (report_line present description filepath)) ;;
  present ← path_exists coverage_path;
  (if (present : bool) then print coverage_line else mret tt) ;;
  print (LF +:+ "📁 All reports: " +:+ reports_dir) ;;
  for_each tools_used print.

Definition interrupted_message : string := LF +:+ "⚠️ Test execution interrupted".

(** [main], given the namespace [parser.parse_args()] returned.  The
    local [success] is unbound until one branch assigns it. *)
Definition main (args : Namespace) : M unit :=
  init ;;
  try_except
    (success ←
       ((if api args then Some <$> run_api_tests
        else if database args then Some <$> run_database_tests
        else if unit_ args then Some <$> run_unit_tests
        else if integration args then Some <$> run_integration_tests
        else if security args then Some <$> run_security_scan
        else if all args then Some <$> run_all_tests
        else mret None) : M (option bool));
     generate_summary ;;
     match success with
     | Some ok => sys_exit (if (ok : bool) then 0 else 1)%Z
     | None => raise (Exception (Error UnboundLocalError
                 "cannot access local variable 'success'"))
     end)
    (λ x, match x with
          | KeyboardInterrupt => Some (print interrupted_message ;; sys_exit 130%Z)
          | _ => None
          end).

End WithEnv.
End Runner.

(** ** [verify_backend_tests.py] *)

Module Verify.

(** [sys.version_info] *)
Record version_info := Version { major : N; minor : N; micro : N }.

(** Steps of the SQLite smoke test that can raise. *)
Inductive sqlite_step :=
| Connect
| Cursor
| CreateTable
| InsertRow
| SelectRow
| FetchOne
| Commit
| Close.

(** A row of [test_table (id, name, email)]. *)
Record row := Row { row_id : Z; row_name : string; row_email : string }.

Inductive http_outcome :=
| Response (status_code : Z)
| RequestFails (e : error).

(** What a child process does when left alone: it ends after some time
    (hundredths of a second) with a return code and its two captured
    streams, it never ends, or it cannot be started. *)
Inductive child_behaviour :=
| Completes (after : N) (returncode : Z) (out err : string)
| Hangs
| CannotStart (e : error).

Record CompletedProcess := Completed {
  returncode : Z;
  proc_stdout : string;
  proc_stderr : string
}.

(** The environment of one run of the script.  Its oracles fail with
    ordinary errors (instances of [Exception]) only: a keyboard
    interrupt during the verification, for which the script has no
    handler, is outside this model. *)
Record env := Env {
  version : version_info;                       (* sys.version_info *)
  executable : string;                          (* sys.executable *)
  base_path : string;                           (* Path(__file__).parent *)
  cwd : string;                                 (* the working directory *)
  import_module : string → option error;        (* None: the import succeeds *)
  requests_get : string → N → http_outcome;     (* url, timeout in seconds *)
  mkstemp : string → string + error;            (* suffix to new file name *)
  sqlite_fails : sqlite_step → option error;    (* None: the step succeeds *)
  fetched : option row;                         (* what fetchone returns *)
  compile_source : string → option error;       (* read and compile a file *)
  child : list string → child_behaviour;
  child_writes : list string → list string;     (* paths a started child creates *)
  child_removes : list string → list string     (* paths a started child deletes *)
}.

(** [sep.join(l)] *)
Fixpoint join (sep : string) (l : list string) : string :=
  match l with
  | [] => EmptyString
  | [x] => x
  | x :: l' => x +:+ sep +:+ join sep l'
  end.

Definition seconds (n : N) : N := (n * 100)%N.

Section WithEnv.
Variable E : env.

Definition dotted (v : version_info) : string :=
  pretty (major v) +:+ "." +:+ pretty (minor v) +:+ "." +:+ pretty (micro v).

Definition check_python_version : M bool :=
  print "🐍 Checking Python version..." ;;
  let version := version E in
  if (major version =? 3)%N && (9 <=? minor version)%N then
    print ("✅ Python " +:+ dotted version +:+ " - Compatible") ;;
    mret true
  else
    print ("❌ Python " +:+ dotted version +:+ " - Requires Python 3.9+") ;;
    mret false.

Definition required_packages : list string :=
  ["pytest"; "requests"; "responses"; "factory_boy"; "faker"; "coverage";
   "bandit"; "safety"].

(** [importlib.import_module(name)] *)
Definition importlib_import_module (name : string) : M unit :=
  match import_module E name with
  | None => mret tt
  | Some e => raise (Exception e)
  end.

Definition check_required_packages : M bool :=
  print (LF +:+ "📦 Checking required packages...") ;;
  missing_packages ←
    for_fold required_packages
      (λ package missing_packages,
         try_except
           ((if String.eqb package "factory_boy"
             then importlib_import_module "factory"
             else importlib_import_module package) ;;
            print ("✅ " +:+ package +:+ " - Installed") ;;
            mret missing_packages)
           (λ x, match x with
                 | Exception e =>
                     if isinstance e ImportError then
                       Some (print ("❌ " +:+ package +:+ " - Missing") ;;
                             mret (missing_packages ++ [package]))
                     else None
                 | _ => None
                 end))
      [];
  match missing_packages with
  | _ :: _ =>
      print (LF +:+ "⚠️  Missing packages: " +:+ join ", " missing_packages) ;;
      print ("Install with: pip install " +:+ join " " missing_packages) ;;
      mret false
  | [] => mret true
  end.

Definition probe_url : string := "https://jsonplaceholder.typicode.com/posts/1".

Definition check_internet_connectivity : M bool :=
  print (LF +:+ "🌐 Checking internet connectivity...") ;;
  try_except
    (match requests_get E probe_url 10 with
     | RequestFails e => raise (Exception e)
     | Response status_code =>
         if (status_code =? 200)%Z then
           print "✅ Internet connectivity - OK" ;;
           print "✅ JSONPlaceholder API - Accessible" ;;
           mret true
         else
           print ("❌ JSONPlaceholder API returned status: " +:+ pretty status_code) ;;
           mret false
     end)
    (λ x, match x with
          | Exception e =>
              if isinstance e RequestException then
                Some (print ("❌ Internet connectivity failed: " +:+ msg e) ;;
                      mret false)
              else None
          | _ => None
          end).

(** [with tempfile.NamedTemporaryFile(suffix=..., delete=False) as f:
    name = f.name]: the file is created and, because of [delete=False],
    stays when the [with] block closes it. *)
Definition named_temporary_file (suffix : string) : M string :=
  match mkstemp E suffix with
  | inl name => λ w,
      (Ret name, World (fs w ∪ {[name]}) (stdout w) (clock w) (launched w))
  | inr e => raise (Exception e)
  end.

Definition sqlite (s : sqlite_step) : M unit :=
  match sqlite_fails E s with
  | None => mret tt
  | Some e => raise (Exception e)
  end.

(** [Path(p).unlink()] *)
Definition unlink (p : string) : M unit := λ w,
  if bool_decide (p ∈ fs w) then
    (Ret tt, World (fs w ∖ {[p]}) (stdout w) (clock w) (launched w))
  else
    (Raise (Exception (Error FileNotFoundError "[Errno 2] No such file or directory")), w).

Definition check_database_functionality : M bool :=
  print (LF +:+ "🗄️  Checking database functionality...") ;;
  try_except
    (db_path ← named_temporary_file ".db";
     sqlite Connect ;;
     sqlite Cursor ;;
     sqlite CreateTable ;;
     sqlite InsertRow ;;
     sqlite SelectRow ;;
     sqlite FetchOne ;;
     let result := fetched E in
     sqlite Commit ;;
     sqlite Close ;;
     unlink db_path ;;
     match result with
     | Some r =>
         if String.eqb (row_name r) "Test User" then
           print "✅ SQLite database - Working" ;;
           mret true
         else
           print "❌ SQLite database - Data retrieval failed" ;;
           mret false
     | None =>
         print "❌ SQLite database - Data retrieval failed" ;;
         mret false
     end)
    (λ x, match x with
          | Exception e =>
              Some (print ("❌ SQLite database error: " +:+ msg e) ;;
                    mret false)
          | _ => None
          end).

Definition test_files : list string :=
  ["backend/blackbox/test_api_simple.py";
   "backend/blackbox/test_database_simple.py";
   "backend/whitebox/test_unit_simple.py";
   "backend/test_integration_simple.py"].

Definition check_test_files_exist : M bool :=
  print (LF +:+ "📁 Checking test files...") ;;
  for_fold test_files
    (λ test_file all_exist,
       present ← path_exists (path_join (base_path E) test_file);
       if (present : bool) then
         print ("✅ " +:+ test_file +:+ " - Exists") ;;
         mret all_exist
       else
         print ("❌ " +:+ test_file +:+ " - Missing") ;;
         mret false)
    true.

(** [with open(f) as h: compile(h.read(), f, 'exec')], the relative
    name being resolved against the working directory. *)
Definition open_and_compile (test_file : string) : M unit :=
  present ← path_exists (path_join (cwd E) test_file);
  if (present : bool) then
    match compile_source E test_file with
    | None => mret tt
    | Some e => raise (Exception e)
    end
  else raise (Exception (Error FileNotFoundError "[Errno 2] No such file or directory")).

Definition run_syntax_check : M bool :=
  print (LF +:+ "🔍 Checking Python syntax...") ;;
  for_fold test_files
    (λ test_file all_valid,
       try_except
         (open_and_compile test_file ;;
          print ("✅ " +:+ test_file +:+ " - Syntax OK") ;;
          mret all_valid)
         (λ x, match x with
               | Exception e =>
                   if isinstance e SyntaxError then
                     Some (print ("❌ " +:+ test_file +:+ " - Syntax Error: " +:+ msg e) ;;
                           mret false)
                   else if isinstance e FileNotFoundError then
                     Some (print ("❌ " +:+ test_file +:+ " - File not found") ;;
                           mret false)
                   else None
               | _ => None
               end))
    true.

Definition timeout_error (timeout : N) : error :=
  Error TimeoutExpired ("Command timed out after " +:+ pretty timeout +:+ " seconds").

(** The paths that exist when the parent stops waiting for the child
    of [command] (at its end, or when it is killed), given those that
    existed when it was started. *)
Definition files_after (command : list string) (files : gset string) : gset string :=
  files ∖ list_to_set (child_removes E command) ∪ list_to_set (child_writes E command).

(** The same for a command handed to [subprocess.run]: a command that
    cannot be started touches nothing. *)
Definition files_left (command : list string) (files : gset string) : gset string :=
  match child E command with
  | CannotStart _ => files
  | _ => files_after command files
  end.

(** [subprocess.run(command, capture_output=True, text=True,
    timeout=timeout)]: a child still running when [timeout] seconds have
    passed is killed and [TimeoutExpired] is raised. *)
Definition subprocess_run (command : list string) (timeout : N) : M CompletedProcess := λ w,
  let w1 := World (fs w) (stdout w) (clock w) (launched w ++ [command]) in
  let waited d := World (files_after command (fs w)) (stdout w) (clock w + d)
                        (launched w ++ [command]) in
  match child E command with
  | CannotStart e => (Raise (Exception e), w1)
  | Hangs => (Raise (Exception (timeout_error timeout)), waited (seconds timeout))
  | Completes after rc out err =>
      if (after <=? seconds timeout)%N
      then (Ret (Completed rc out err), waited after)
      else (Raise (Exception (timeout_error timeout)), waited (seconds timeout))
  end.

Definition collect_command : list string :=
  [executable E; "-m"; "pytest"; "backend/"; "--collect-only"; "-q"].

Definition run_quick_test : M bool :=
  print (LF +:+ "🧪 Running quick pytest verification...") ;;
  try_except
    (result ← subprocess_run collect_command 30;
     if (returncode result =? 0)%Z then
       print "✅ Pytest collection - OK" ;;
       print ("📊 Found tests in output:" +:+ LF +:+ proc_stdout result) ;;
       mret true
     else
       print ("❌ Pytest collection failed:" +:+ LF +:+ proc_stderr result) ;;
       mret false)
    (λ x, match x with
          | Exception e =>
              if isinstance e TimeoutExpired then
                Some (print "❌ Pytest collection - Timeout" ;; mret false)
              else
                Some (print ("❌ Pytest collection error: " +:+ msg e) ;; mret false)
          | _ => None
          end).

Definition sample_command : list string :=
  [executable E; "-m"; "pytest";
   "backend/blackbox/test_api_simple.py::TestAPIBlackBox::test_get_posts";
   "-v"; "--tb=short"].

Definition run_sample_backend_test : M bool :=
  print (LF +:+ "🎯 Running sample backend test...") ;;
  try_except
    (result ← subprocess_run sample_command 60;
     if (returncode result =? 0)%Z then
       print "✅ Sample backend test - PASSED" ;;
       print "🎉 Backend testing is working correctly!" ;;
       mret true
     else
       print "❌ Sample backend test - FAILED" ;;
       print ("Error output:" +:+ LF +:+ proc_stdout result +:+ LF +:+ proc_stderr result) ;;
       mret false)
    (λ x, match x with
          | Exception e =>
              if isinstance e TimeoutExpired then
                Some (print "❌ Sample test - Timeout" ;; mret false)
              else
                Some (print ("❌ Sample test error: " +:+ msg e) ;; mret false)
          | _ => None
          end).

Definition checks : list (string * M bool) :=
  [("Python Version", check_python_version);
   ("Required Packages", check_required_packages);
   ("Internet Connectivity", check_internet_connectivity);
   ("Database Functionality", check_database_functionality);
   ("Test Files", check_test_files_exist);
   ("Python Syntax", run_syntax_check);
   ("Pytest Collection", run_quick_test);
   ("Sample Test", run_sample_backend_test)].

Definition unexpected (check_name : string) (e : error) : string :=
  "❌ " +:+ check_name +:+ " - Unexpected error: " +:+ msg e.

(** The loop of [main]: one iteration per entry of [checks]. *)
Definition run_checks (cs : list (string * M bool)) : M nat :=
  for_fold cs
    (λ '(check_name, check_function) passed_checks,
       try_except
         (ok ← check_function;
          mret (if (ok : bool) then (passed_checks + 1)%nat else passed_checks))
         (λ x, match x with
               | Exception e =>
                   Some (print (unexpected check_name e) ;; mret passed_checks)
               | _ => None
               end))
    0%nat.

Definition passed_line (passed_checks total_checks : nat) : string :=
  "Passed: " +:+ pretty passed_checks +:+ "/" +:+ pretty total_checks +:+ " checks".

Definition main : M bool :=
  print "🔍 Backend Testing Verification" ;;
  print (str_mul "=" 50) ;;
  let total_checks := length checks in
  passed_checks ← run_checks checks;
  print (LF +:+ str_mul "=" 50) ;;
  print "📊 VERIFICATION SUMMARY" ;;
  print (passed_line passed_checks total_checks) ;;
  if (passed_checks =? total_checks)%nat then
    print "🎉 ALL CHECKS PASSED! Backend testing is ready to use." ;;
    print (LF +:+ "🚀 You can now run:") ;;
    print "   python run_backend_tests.py --all" ;;
    print "   pytest backend/ -v" ;;
    mret true
  else
    print ("⚠️  " +:+ pretty (total_checks - passed_checks)%nat
           +:+ " checks failed. Please fix the issues above.") ;;
    mret false.

(** [import name]: the statement asks the same import system as
    [importlib.import_module(name)]. *)
Definition import_ (name : string) : M unit := importlib_import_module name.

(** The imports at the top of the module.  [sys], [subprocess],
    [importlib], [pathlib], [sqlite3] and [tempfile] belong to the
    standard library and are taken to import; [requests] is a
    third-party package, and its import can fail. *)
Definition module_imports : M unit := import_ "requests".

(** The script as the interpreter runs it: the module's imports, the
    function definitions (which do nothing when executed), then the
    [if __name__ == "__main__":] block. *)
Definition script : M unit :=
  module_imports ;;
  success ← main;
  sys_exit (if (success : bool) then 0 else 1)%Z.

End WithEnv.
End Verify.

(** ** [backend/whitebox/test_unit_simple.py]: [UserService] *)

Module UserService.

(** The values a request dictionary holds, and Python's truth value of
    each. *)
Inductive value :=
| VNone
| VBool (b : bool)
| VInt (z : Z)
| VStr (s : string).

Definition truthy (v : value) : bool :=
  match v with
  | VNone => false
  | VBool b => b
  | VInt z => negb (z =? 0)%Z
  | VStr s => negb (String.eqb s EmptyString)
  end.

(** [d.get(key)] *)
Definition dict_get (d : gmap string value) (key : string) : value :=
  default VNone (d !! key).

Section WithPayload.
(** What [response.json()] decodes to. *)
Variable J : Type.

(** A response: its status and what [json()] gives, a decoded body or
    the error it raises. *)
Record response := Response {
  status_code : Z;
  json : J + error
}.

(** The HTTP library: a response, or the error the call raises. *)
Record env := Env {
  requests_get : string → response + error;
  requests_post : string → gmap string value → response + error
}.

(** A [UserService] object; [sent] logs the URLs requested so far (kept
    only to state which requests were made). *)
Record service := Service {
  api_url : string;
  cache : gmap Z J;
  sent : list string
}.

(** [UserService(api_url)] *)
Definition init (api_url : string) : service := Service api_url ∅ [].

Variable E : env.

Definition get_user (self : service) (user_id : Z) : result (option J) * service :=
  match cache self !! user_id with
  | Some user_data => (Ret (Some user_data), self)
  | None =>
      let url := api_url self +:+ "/users/" +:+ pretty user_id in
      let self1 := Service (api_url self) (cache self) (sent self ++ [url]) in
      match requests_get E url with
      | inr e => (Raise (Exception e), self1)
      | inl response =>
          if (status_code response =? 200)%Z then
            match json response with
            | inr e => (Raise (Exception e), self1)
            | inl user_data =>
                (Ret (Some user_data),
                 Service (api_url self) (<[user_id := user_data]> (cache self))
                         (sent self ++ [url]))
            end
          else (Ret None, self1)
      end
  end.

Definition create_user (self : service) (user_data : gmap string value)
    : result J * service :=
  if negb (truthy (dict_get user_data "name"))
     || negb (truthy (dict_get user_data "email"))
  then (Raise (Exception (Error ValueError "Name and email are required")), self)
  else
    let url := api_url self +:+ "/users" in
    let self1 := Service (api_url self) (cache self) (sent self ++ [url]) in
    match requests_post E url user_data with
    | inr e => (Raise (Exception e), self1)
    | inl response =>
        if (status_code response =? 201)%Z then
          match json response with
          | inr e => (Raise (Exception e), self1)
          | inl created => (Ret created, self1)
          end
        else (Raise (Exception (Error Exception_ "Failed to create user")), self1)
    end.

Definition clear_cache (self : service) : service :=
  Service (api_url self) ∅ (sent self).

End WithPayload.
End UserService.

(** ** [backend/blackbox/test_database_simple.py]: the life cycle of
    [DatabaseService]

    Construction, [setup_database] and [cleanup].  The three query
    methods are SQL statements run by SQLite and are not embedded. *)

Module DatabaseService.

(** Steps of [setup_database] that can raise. *)
Inductive setup_step :=
| Connect
| CreateTable
| Commit
| SelectMaster
| FetchOne
| ExitConnection.

Record env := Env {
  mkstemp : string → string + error;          (* suffix to new file name *)
  sqlite_fails : setup_step → option error;   (* None: the step succeeds *)
  table_found : bool;                         (* fetchone() found the table *)
  unlink_fails : option exn                   (* what os.unlink raises, if anything *)
}.

(** The attributes of an object: [temp_file] is set only when the
    constructor made the file itself. *)
Record object := Object {
  db_path : string;
  temp_file : option string
}.

Section WithEnv.
Variable E : env.

Definition sqlite (s : setup_step) : M unit :=
  match sqlite_fails E s with
  | None => mret tt
  | Some e => raise (Exception e)
  end.

(** [sqlite3.connect(path)]: opening creates the file when it is not
    there. *)
Definition create_if_missing (path : string) : M unit := λ w,
  (Ret tt, World (fs w ∪ {[path]}) (stdout w) (clock w) (launched w)).

Definition connect (path : string) : M unit :=
  sqlite Connect ;; create_if_missing path.

Definition setup_database (self : object) : M unit :=
  try_except
    (connect (db_path self) ;;
     sqlite CreateTable ;;
     sqlite Commit ;;
     sqlite SelectMaster ;;
     sqlite FetchOne ;;
     (if table_found E then mret tt
      else raise (Exception (Error Exception_ "Failed to create users table"))) ;;
     sqlite ExitConnection)
    (λ x, match x with
          | Exception e =>
              Some (print ("Database setup error: " +:+ msg e) ;; raise (Exception e))
          | _ => None
          end).

(** [tempfile.NamedTemporaryFile(delete=False, suffix=...)] followed by
    [close()]. *)
Definition named_temporary_file (suffix : string) : M string :=
  match mkstemp E suffix with
  | inl name => λ w,
      (Ret name, World (fs w ∪ {[name]}) (stdout w) (clock w) (launched w))
  | inr e => raise (Exception e)
  end.

(** [DatabaseService(db_path)] *)
Definition init (db_path : option string) : M object :=
  self ← match db_path with
         | None =>
             name ← named_temporary_file ".db";
             mret (Object name (Some name))
         | Some path => mret (Object path None)
         end;
  setup_database self ;;
  mret self.

(** [os.unlink(path)] *)
Definition os_unlink (path : string) : M unit := λ w,
  match unlink_fails E with
  | Some x => (Raise x, w)
  | None =>
      if bool_decide (path ∈ fs w) then
        (Ret tt, World (fs w ∖ {[path]}) (stdout w) (clock w) (launched w))
      else
        (Raise (Exception (Error FileNotFoundError "[Errno 2] No such file or directory")), w)
  end.

Definition cleanup (self : object) : M unit :=
  match temp_file self with
  | Some _ => try_except (os_unlink (db_path self)) (λ _, Some (mret tt))
  | None => mret tt
  end.

End WithEnv.
End DatabaseService.

(** ** Vocabulary of the statements *)

(** The six selectable categories and the namespace [argparse] builds
    when exactly that flag is given. *)
Inductive category := API | Database | Unit | Integration | Security | All.

Definition namespace_of (c : category) : Runner.Namespace :=
  match c with
  | API => Runner.Args true false false false false false
  | Database => Runner.Args false true false false false false
  | Unit => Runner.Args false false true false false false
  | Integration => Runner.Args false false false true false false
  | Security => Runner.Args false false false false true false
  | All => Runner.Args false false false false false true
  end.

(** The method [main] calls for a category, and the commands that
    method hands to [run_command], in order. *)
Definition selected_run (E : Runner.env) (c : category) : M bool :=
  match c with
  | API => Runner.run_api_tests E
  | Database => Runner.run_database_tests E
  | Unit => Runner.run_unit_tests E
  | Integration => Runner.run_integration_tests E
  | Security => Runner.run_security_scan E
  | All => Runner.run_all_tests E
  end.

Definition commands_of (c : category) : list (list string) :=
  match c with
  | API => [Runner.api_command]
  | Database => [Runner.database_command]
  | Unit => [Runner.unit_command]
  | Integration => [Runner.integration_command]
  | Security => map fst Runner.security_commands
  | All => [Runner.all_command]
  end.

(** The child of [cmd] starts, runs undisturbed and exits with some
    return code. *)
Definition exits (E : Runner.env) (cmd : list string) : Prop :=
  ∃ rc, Runner.outcome (Runner.spawn E cmd) = Runner.Finished (Runner.Exited rc).

(** A keyboard interrupt arrives while one of the category's commands
    runs, the commands before it having run to their exit. *)
Definition interrupted_during (E : Runner.env) (c : category) : Prop :=
  ∃ before cmd after,
    commands_of c = before ++ cmd :: after
    ∧ Forall (exits E) before
    ∧ Runner.outcome (Runner.spawn E cmd) = Runner.Interrupted.

(** The lines [generate_summary] prints, as a function of the paths
    that exist. *)
Definition entry_line (E : Runner.env) (files : gset string)
    (entry : string * string) : string :=
  let filepath := path_join (Runner.reports_dir E) (fst entry) in
  Runner.report_line (bool_decide (filepath ∈ files)) (snd entry) filepath.

Definition summary_output (E : Runner.env) (files : gset string) : list string :=
  [LF +:+ Runner.rule; Runner.summary_banner; Runner.rule; LF +:+ "📊 Test Reports:"]
  ++ map (entry_line E files) Runner.reports
  ++ (if bool_decide (Runner.coverage_path E ∈ files)
      then [Runner.coverage_line E] else [])
  ++ [LF +:+ "📁 All reports: " +:+ Runner.reports_dir E]
  ++ Runner.tools_used.

(** The lines [run_command] prints before it starts the child. *)
Definition announcement (description : string) : list string :=
  [LF +:+ Runner.rule; "Running: " +:+ description; Runner.rule].

(** [strip_prefix p s]: the rest of [s] after the prefix [p]. *)
Fixpoint strip_prefix (p s : string) : option string :=
  match p, s with
  | EmptyString, _ => Some s
  | String a p', String b s' =>
      if Ascii.eqb a b then strip_prefix p' s' else None
  | String _ _, EmptyString => None
  end.

(** The files a pytest command line asks the framework and its report
    plugins to write, relative to the child's working directory: the
    target of [--html=] and the index page inside the directory of
    [--cov-report=html:]. *)
Definition declared_artifacts (command : list string) : list string :=
  flat_map
    (λ arg,
       match strip_prefix "--html=" arg with
       | Some file => [file]
       | None =>
           match strip_prefix "--cov-report=html:" arg with
           | Some dir => [path_join dir "index.html"]
           | None => []
           end
       end)
    command.

(** Nothing exists yet below the reports directory. *)
Definition fresh_reports (E : Runner.env) (w : world) : Prop :=
  ∀ p, p ∈ fs w → String.prefix (Runner.reports_dir E +:+ "/") p = false.

(** The output a run adds to what was on the console before. *)
Definition new_output (before after : world) : list string :=
  drop (length (stdout before)) (stdout after).

(** Concrete environments and worlds used to exercise the statements. *)
Definition empty_world : world := World ∅ [] 0 [].

(** Every tool is installed and passes; pytest writes the artifacts its
    command line names. *)
Definition env_all_pass : Runner.env :=
  Runner.Env "/repo"
    (λ cmd, Runner.Child (Runner.Finished (Runner.Exited 0)) 150
              (map (path_join "/repo") (declared_artifacts cmd)) []).

(** The static-analysis scan reports findings (exit status 1); the
    dependency check passes. *)
Definition env_bandit_findings : Runner.env :=
  Runner.Env "/repo"
    (λ cmd, if bool_decide (cmd = Runner.bandit_command)
            then Runner.Child (Runner.Finished (Runner.Exited 1)) 420 [] []
            else Runner.Child (Runner.Finished (Runner.Exited 0)) 150 [] []).

(** [bandit] is not installed; every other tool is and passes. *)
Definition env_bandit_missing : Runner.env :=
  Runner.Env "/repo"
    (λ cmd, if bool_decide (cmd = Runner.bandit_command)
            then Runner.Child (Runner.Finished (Runner.CannotStart Runner.NotFound)) 0 [] []
            else Runner.Child (Runner.Finished (Runner.Exited 0)) 150 [] []).

(** [pytest] is not on the search path. *)
Definition env_pytest_missing : Runner.env :=
  Runner.Env "/repo"
    (λ cmd, Runner.Child (Runner.Finished (Runner.CannotStart Runner.NotFound)) 0 [] []).

(** The static-analysis scan passes; the user presses Ctrl-C while the
    dependency check runs. *)
Definition env_ctrl_c_in_second_scan : Runner.env :=
  Runner.Env "/repo"
    (λ cmd, if bool_decide (cmd = Runner.safety_command)
            then Runner.Child Runner.Interrupted 90 [] []
            else Runner.Child (Runner.Finished (Runner.Exited 0)) 420 [] []).

(** The user presses Ctrl-C three seconds into any child. *)
Definition env_ctrl_c : Runner.env :=
  Runner.Env "/repo" (λ cmd, Runner.Child Runner.Interrupted 300 [] []).

(** Vocabulary for the verification script. *)

Definition version_at_least (v : Verify.version_info) (maj min : N) : bool :=
  (maj <? Verify.major v)%N || ((Verify.major v =? maj)%N && (min <=? Verify.minor v)%N).

(** The child of [cmd] is still running when [timeout] seconds have
    passed. *)
Definition outlasts (E : Verify.env) (cmd : list string) (timeout : N) : Prop :=
  match Verify.child E cmd with
  | Verify.Hangs => True
  | Verify.Completes after _ _ _ => (Verify.seconds timeout < after)%N
  | Verify.CannotStart _ => False
  end.

(** A computation that leaves only by returning or by raising an
    ordinary error. *)
Definition errors_only {A} (m : M A) : Prop :=
  ∀ w, match fst (m w) with
       | Raise KeyboardInterrupt | Raise (SystemExit _) => False
       | _ => True
       end.

(** [check_trace cs w bs w']: starting in [w], every check of [cs] is
    called, in order, each in the world its predecessor left; [bs]
    records for each whether it passed, a check that raised an error
    counting as not passed after its error is reported. *)
Inductive check_trace : list (string * M bool) → world → list bool → world → Prop :=
| trace_done w : check_trace [] w [] w
| trace_returned name check cs w b w1 bs w2 :
    check w = (Ret b, w1) →
    check_trace cs w1 bs w2 →
    check_trace ((name, check) :: cs) w (b :: bs) w2
| trace_raised name check cs w e w1 bs w2 :
    check w = (Raise (Exception e), w1) →
    check_trace cs (snd (print (Verify.unexpected name e) w1)) bs w2 →
    check_trace ((name, check) :: cs) w (false :: bs) w2.

Fixpoint passed (bs : list bool) : nat :=
  match bs with
  | [] => 0
  | true :: bs' => S (passed bs')
  | false :: bs' => passed bs'
  end.

(** A machine on which everything is in order. *)
Definition env_ready : Verify.env :=
  Verify.Env (Verify.Version 3 11 4) "/usr/bin/python3" "/repo" "/repo"
    (λ _, None)
    (λ _ _, Verify.Response 200)
    (λ suffix, inl ("/tmp/tmpk3v9x1qa" +:+ suffix))
    (λ _, None)
    (Some (Verify.Row 1 "Test User" "test@example.com"))
    (λ _, None)
    (λ _, Verify.Completes 480 0 "4 tests collected" EmptyString)
    (λ _, ["/repo/.pytest_cache/CACHEDIR.TAG"])
    (λ _, []).

Definition with_version (v : Verify.version_info) (E : Verify.env) : Verify.env :=
  Verify.Env v (Verify.executable E) (Verify.base_path E) (Verify.cwd E)
    (Verify.import_module E) (Verify.requests_get E) (Verify.mkstemp E)
    (Verify.sqlite_fails E) (Verify.fetched E) (Verify.compile_source E)
    (Verify.child E) (Verify.child_writes E) (Verify.child_removes E).

Definition with_sqlite_failure (s : Verify.sqlite_step) (e : error) (E : Verify.env) : Verify.env :=
  Verify.Env (Verify.version E) (Verify.executable E) (Verify.base_path E) (Verify.cwd E)
    (Verify.import_module E) (Verify.requests_get E) (Verify.mkstemp E)
    (λ s', match s, s' with
           | Verify.Connect, Verify.Connect | Verify.Cursor, Verify.Cursor
           | Verify.CreateTable, Verify.CreateTable | Verify.InsertRow, Verify.InsertRow
           | Verify.SelectRow, Verify.SelectRow | Verify.FetchOne, Verify.FetchOne
           | Verify.Commit, Verify.Commit | Verify.Close, Verify.Close => Some e
           | _, _ => Verify.sqlite_fails E s'
           end)
    (Verify.fetched E) (Verify.compile_source E) (Verify.child E)
    (Verify.child_writes E) (Verify.child_removes E).

Definition with_child (c : list string → Verify.child_behaviour) (E : Verify.env) : Verify.env :=
  Verify.Env (Verify.version E) (Verify.executable E) (Verify.base_path E) (Verify.cwd E)
    (Verify.import_module E) (Verify.requests_get E) (Verify.mkstemp E)
    (Verify.sqlite_fails E) (Verify.fetched E) (Verify.compile_source E) c
    (Verify.child_writes E) (Verify.child_removes E).

(** The four test files are in place. *)
Definition repo_world : world :=
  World (list_to_set (map (path_join "/repo") Verify.test_files)) [] 0 [].


(** The collection dry run never ends; every other child needs 60.01
    seconds. *)
Definition env_slow_children : Verify.env :=
  with_child (λ cmd, match cmd with
                     | [_; _; _; "backend/"; _; _] => Verify.Hangs
                     | _ => Verify.Completes 6001 0 "1 passed" EmptyString
                     end) env_ready.

(** The [safety] package is not installed. *)
Definition env_safety_missing : Verify.env :=
  Verify.Env (Verify.version env_ready) (Verify.executable env_ready)
    (Verify.base_path env_ready) (Verify.cwd env_ready)
    (λ name, if String.eqb name "safety"
             then Some (Error ModuleNotFoundError "No module named 'safety'")
             else None)
    (Verify.requests_get env_ready) (Verify.mkstemp env_ready)
    (Verify.sqlite_fails env_ready) (Verify.fetched env_ready)
    (Verify.compile_source env_ready) (Verify.child env_ready)
    (Verify.child_writes env_ready) (Verify.child_removes env_ready).

(** The [INSERT] of the smoke test hits a disk error. *)
Definition env_insert_fails : Verify.env :=
  with_sqlite_failure Verify.InsertRow (Error sqlite3_Error "disk I/O error") env_ready.

(** ** Vocabulary of the further properties *)

(** ** Readiness of the environment, check by check *)

(** [succeeds o]: the oracle reported no error. *)
Definition succeeds (o : option error) : bool :=
  match o with
  | None => true
  | Some _ => false
  end.

(** The module [check_required_packages] imports for a package name. *)
Definition probe (E : Verify.env) (package : string) : option error :=
  Verify.import_module E
    (if String.eqb package "factory_boy" then "factory" else package).

(** The probe of a package ends in a way the check handles itself. *)
Definition benign (E : Verify.env) (package : string) : Prop :=
  ∀ e, probe E package = Some e → isinstance e ImportError = true.

Definition probe_line (E : Verify.env) (package : string) : string :=
  if succeeds (probe E package)
  then "✅ " +:+ package +:+ " - Installed"
  else "❌ " +:+ package +:+ " - Missing".

Definition missing_packages (E : Verify.env) : list string :=
  filter (λ package, succeeds (probe E package) = false) Verify.required_packages.

Definition all_steps : list Verify.sqlite_step :=
  [Verify.Connect; Verify.Cursor; Verify.CreateTable; Verify.InsertRow;
   Verify.SelectRow; Verify.FetchOne; Verify.Commit; Verify.Close].

Definition python_ok (E : Verify.env) : bool :=
  (Verify.major (Verify.version E) =? 3)%N && (9 <=? Verify.minor (Verify.version E))%N.

Definition packages_ok (E : Verify.env) : bool :=
  forallb (λ package, succeeds (probe E package)) Verify.required_packages.

Definition internet_ok (E : Verify.env) : bool :=
  match Verify.requests_get E Verify.probe_url 10 with
  | Verify.Response status_code => (status_code =? 200)%Z
  | Verify.RequestFails _ => false
  end.

Definition database_ok (E : Verify.env) : bool :=
  match Verify.mkstemp E ".db" with
  | inl _ =>
      forallb (λ s, succeeds (Verify.sqlite_fails E s)) all_steps
      && match Verify.fetched E with
         | Some r => String.eqb (Verify.row_name r) "Test User"
         | None => false
         end
  | inr _ => false
  end.

Definition files_ok (E : Verify.env) (files : gset string) : bool :=
  forallb (λ f, bool_decide (path_join (Verify.base_path E) f ∈ files))
          Verify.test_files.

Definition syntax_ok (E : Verify.env) (files : gset string) : bool :=
  forallb (λ f, bool_decide (path_join (Verify.cwd E) f ∈ files)
                && succeeds (Verify.compile_source E f))
          Verify.test_files.

(** A child run under [timeout] seconds ends in time with status 0. *)
Definition child_ok (E : Verify.env) (command : list string) (timeout : N) : bool :=
  match Verify.child E command with
  | Verify.Completes after rc _ _ =>
      (after <=? Verify.seconds timeout)%N && (rc =? 0)%Z
  | _ => false
  end.

(** Everything the eight checks look at is in order. *)
Definition ready (E : Verify.env) (files : gset string) : bool :=
  python_ok E && packages_ok E && internet_ok E && database_ok E
  && files_ok E files && syntax_ok E files
  && child_ok E (Verify.collect_command E) 30
  && child_ok E (Verify.sample_command E) 60.

(** A computation that touches nothing but the console. *)
Definition console_only {A} (m : M A) : Prop :=
  ∀ w, fs (snd (m w)) = fs w
       ∧ clock (snd (m w)) = clock w
       ∧ launched (snd (m w)) = launched w.

(** The first error, in the order of [l], that the surrounding [except]
    clauses do not handle; [None] when every outcome is a success or a
    handled error. *)
Fixpoint first_unhandled (handled : error → bool) (outcome : string → option error)
    (l : list string) : option error :=
  match l with
  | [] => None
  | x :: l' =>
      match outcome x with
      | Some e => if handled e then first_unhandled handled outcome l' else Some e
      | None => first_unhandled handled outcome l'
      end
  end.

(** What opening and compiling a test file ends in. *)
Definition compile_outcome (E : Verify.env) (files : gset string) (f : string)
    : option error :=
  if bool_decide (path_join (Verify.cwd E) f ∈ files)
  then Verify.compile_source E f
  else Some (Error FileNotFoundError "[Errno 2] No such file or directory").

Definition syntax_handled (e : error) : bool :=
  isinstance e SyntaxError || isinstance e FileNotFoundError.

Definition syntax_line (E : Verify.env) (files : gset string) (f : string) : string :=
  match compile_outcome E files f with
  | None => "✅ " +:+ f +:+ " - Syntax OK"
  | Some e =>
      if isinstance e SyntaxError
      then "❌ " +:+ f +:+ " - Syntax Error: " +:+ msg e
      else "❌ " +:+ f +:+ " - File not found"
  end.

(** The commands of [cmds] that are handed to [subprocess.run]: each one
    in turn, up to and including the first that does not run to an exit
    code. *)
Fixpoint attempted (E : Runner.env) (cmds : list (list string)) : list (list string) :=
  match cmds with
  | [] => []
  | cmd :: rest =>
      cmd :: match Runner.outcome (Runner.spawn E cmd) with
             | Runner.Finished (Runner.Exited _) => attempted E rest
             | _ => []
             end
  end.

(** The paths that exist once the smoke test is over. *)
Definition files_after_smoke_test (E : Verify.env) (files : gset string)
    : gset string :=
  match Verify.mkstemp E ".db" with
  | inl name =>
      if forallb (λ s, succeeds (Verify.sqlite_fails E s)) all_steps
      then files ∖ {[name]}
      else files ∪ {[name]}
  | inr _ => files
  end.

(** The script is started from the user's home directory. *)
Definition env_elsewhere : Verify.env :=
  Verify.Env (Verify.version env_ready) (Verify.executable env_ready)
    (Verify.base_path env_ready) "/home/user"
    (Verify.import_module env_ready) (Verify.requests_get env_ready)
    (Verify.mkstemp env_ready) (Verify.sqlite_fails env_ready)
    (Verify.fetched env_ready) (Verify.compile_source env_ready)
    (Verify.child env_ready)
    (Verify.child_writes env_ready) (Verify.child_removes env_ready).

(** An API that knows user 1 and answers 404 for everyone else. *)
Definition api_with_one_user : UserService.env string :=
  UserService.Env string
    (λ url, if String.eqb url "https://api.example.com/users/1"
            then inl (UserService.Response string 200 (inl "John Doe"))
            else inl (UserService.Response string 404
                        (inr (Error ValueError "Expecting value"))))
    (λ url user_data, inl (UserService.Response string 201 (inl "created"))).

(** The network is down. *)
Definition api_unreachable : UserService.env string :=
  UserService.Env string
    (λ url, inr (Error RequestException "Connection refused"))
    (λ url user_data, inr (Error RequestException "Connection refused")).

(** SQLite works and temporary files get the name below. *)
Definition sqlite_works : DatabaseService.env :=
  DatabaseService.Env (λ suffix, inl ("/tmp/tmp8f2kq0zd" +:+ suffix))
    (λ _, None) true None.

(** The disk is full when the table is created. *)
Definition sqlite_disk_full : DatabaseService.env :=
  DatabaseService.Env (λ suffix, inl ("/tmp/tmp8f2kq0zd" +:+ suffix))
    (λ s, match s with
          | DatabaseService.CreateTable =>
              Some (Error sqlite3_Error "database or disk is full")
          | _ => None
          end)
    true None.

(** ** The summary as the specification words it *)

Definition mark (present : bool) : string := if present then "✅" else "❌".

(** The lines of the summary, written out from the specification and
    from the texts of the [print] statements, without any definition of
    [Runner]: the header, one line for each of the five reports of the
    fixed list, marked by [present] of its file name, the coverage
    pointer when [coverage] holds, and the footer.  [base] is the
    directory of the script. *)
Definition summary_lines (base : string) (present : string → bool)
    (coverage : bool) : list string :=
  let entry label name :=
    "  " +:+ mark (present name) +:+ " " +:+ label +:+ ": "
        +:+ base +:+ "/reports/" +:+ name in
  [LF +:+ "==================================================";
   "BACKEND TESTING SUMMARY";
   "==================================================";
   LF +:+ "📊 Test Reports:";
   entry "API Tests" "api-tests.html";
   entry "Database Tests" "database-tests.html";
   entry "Unit Tests" "unit-tests.html";
   entry "Integration Tests" "integration-tests.html";
   entry "Complete Test Suite" "all-backend-tests.html"]
  ++ (if coverage
      then [LF +:+ "📈 Coverage Report: " +:+ base
               +:+ "/reports/full-coverage/index.html"]
      else [])
  ++ [LF +:+ "📁 All reports: " +:+ base +:+ "/reports";
      LF +:+ "🔧 Tools Used:";
      "  • pytest: Test framework";
      "  • Factory Boy: Test data generation";
      "  • Responses: HTTP mocking";
      "  • pytest-mock: Function mocking";
      "  • pytest-cov: Code coverage";
      "  • Bandit: Security scanning"].

(** A unit run as pytest and its plugins leave it: the HTML report, the
    pages of the coverage report, the coverage data file and the
    caches; a stale data file is replaced. *)
Definition env_unit_run : Runner.env :=
  Runner.Env "/repo"
    (λ cmd, Runner.Child (Runner.Finished (Runner.Exited 0)) 231
              ["/repo/reports/unit-tests.html";
               "/repo/reports/coverage/index.html";
               "/repo/reports/coverage/style.css";
               "/repo/reports/coverage/status.json";
               "/repo/.coverage";
               "/repo/.pytest_cache/CACHEDIR.TAG";
               "/repo/tests/backend/whitebox/__pycache__/test_unit_simple.pyc"]
              ["/repo/.coverage.old"]).

(** A checkout in which the tests have not been run yet. *)
Definition checkout_world : world :=
  World (list_to_set ["/repo/run_backend_tests.py"; "/repo/.coverage.old";
                      "/repo/tests/backend/whitebox/test_unit_simple.py"])
        [] 0 [].

(** The paths that exist when the commands of [cmds] have been handed
    to [subprocess.run] one after the other. *)
Definition files_after_commands (E : Runner.env) (cmds : list (list string))
    (files : gset string) : gset string :=
  foldl (λ files cmd, Runner.files_left (Runner.spawn E cmd) files) files cmds.

(** The [requests] package is not installed. *)
Definition env_requests_missing : Verify.env :=
  Verify.Env (Verify.version env_ready) (Verify.executable env_ready)
    (Verify.base_path env_ready) (Verify.cwd env_ready)
    (λ name, if String.eqb name "requests"
             then Some (Error ModuleNotFoundError "No module named 'requests'")
             else None)
    (Verify.requests_get env_ready) (Verify.mkstemp env_ready)
    (Verify.sqlite_fails env_ready) (Verify.fetched env_ready)
    (Verify.compile_source env_ready) (Verify.child env_ready)
    (Verify.child_writes env_ready) (Verify.child_removes env_ready).

(** A call of [get_user] or [create_user], with the API it meets. *)
Inductive user_call (J : Type) :=
| GetUser (E : UserService.env J) (user_id : Z)
| CreateUser (E : UserService.env J) (user_data : gmap string UserService.value).
Arguments GetUser {J} E user_id.
Arguments CreateUser {J} E user_data.

(** The service after one such call, whether it returned or raised. *)
Definition after_call {J} (self : UserService.service J) (c : user_call J)
    : UserService.service J :=
  match c with
  | GetUser E user_id => snd (UserService.get_user J E self user_id)
  | CreateUser E user_data => snd (UserService.create_user J E self user_data)
  end.

Definition after_calls {J} (self : UserService.service J) (calls : list (user_call J))
    : UserService.service J :=
  foldl after_call self calls.

(** * Properties of the test runner *)

(** ** Proof automation for the monad *)


Ltac unfold_monad :=
  unfold mbind, mret, fmap, M_bind, M_ret, M_fmap, try_except, raise, sys_exit,
    print, time_time, path_exists in *.

Ltac mcbn :=
  cbn -[String.append fmt_2f Runner.rule LF union difference list_to_set
        N.add N.sub pretty bool_decide str_mul] in *.

Ltac norm_out := rewrite <- ?app_assoc; cbn [app].

(** Stepping through a sequence of console operations, one statement at
    a time. *)
Section Steps.
Context {A B C : Type}.

Lemma print_then (s : string) (k : M A) w :
  (print s ;; k) w = k (World (fs w) (stdout w ++ [s]) (clock w) (launched w)).
Proof. reflexivity. Qed.

Lemma exists_then (p : string) (k : bool → M A) w :
  (path_exists p ≫= k) w = k (bool_decide (p ∈ fs w)) w.
Proof. reflexivity. Qed.

Lemma bind_assoc (m : M A) (f : A → M B) (g : B → M C) w :
  ((m ≫= f) ≫= g) w = (m ≫= (λ a, f a ≫= g)) w.
Proof. unfold mbind, M_bind. by destruct (m w) as [[a|e] w1]. Qed.

Lemma ret_then (a : A) (k : A → M B) w : (mret a ≫= k) w = k a w.
Proof. reflexivity. Qed.
End Steps.

Lemma print_last (s : string) w :
  print s w = (Ret tt, World (fs w) (stdout w ++ [s]) (clock w) (launched w)).
Proof. reflexivity. Qed.

Ltac step :=
  first [ rewrite print_then | rewrite exists_then | rewrite bind_assoc
        | rewrite ret_then | rewrite print_last ];
  cbn beta; cbn [fs stdout clock launched].

(** ** Strings and paths *)

Lemma append_assoc (a b c : string) : (a +:+ b) +:+ c = a +:+ (b +:+ c).
Proof.
  induction a as [|x a IH]; [reflexivity|].
  change (String x ((a +:+ b) +:+ c) = String x (a +:+ (b +:+ c))). by f_equal.
Qed.

Lemma prefix_append (a s : string) : String.prefix a (a +:+ s) = true.
Proof.
  induction a as [|x a IH]; [by destruct s|].
  change (String.prefix (String x a) (String x (a +:+ s)) = true).
  cbn [String.prefix]. destruct (Ascii.ascii_dec x x); [exact IH | congruence].
Qed.

Lemma append_cancel (a x y : string) : a +:+ x = a +:+ y → x = y.
Proof. apply String.app_inj. Qed.

(** A common beginning does not matter to [String.prefix]. *)
Lemma prefix_append_both (a x y : string) :
  String.prefix (a +:+ x) (a +:+ y) = String.prefix x y.
Proof.
  induction a as [|c a IH]; [reflexivity|].
  change (String.prefix (String c (a +:+ x)) (String c (a +:+ y)) = String.prefix x y).
  cbn [String.prefix]. destruct (Ascii.ascii_dec c c); [exact IH | congruence].
Qed.

(** ** What each method of the runner computes *)

Section RunnerEquations.
Import Runner.
Variable E : env.

(** Paths below the reports directory, from the directory of the
    script. *)
Lemma reports_dir_eq : reports_dir E = base_dir E +:+ "/reports".
Proof. reflexivity. Qed.

Lemma reports_file_eq name :
  path_join (reports_dir E) name = base_dir E +:+ "/reports/" +:+ name.
Proof. unfold reports_dir, path_join. by rewrite !append_assoc. Qed.

Lemma coverage_path_eq :
  coverage_path E = base_dir E +:+ "/reports/full-coverage/index.html".
Proof. unfold coverage_path, reports_dir, path_join. by rewrite !append_assoc. Qed.

Lemma launch_exception_not_child_failure l :
  isinstance (launch_exception l) CalledProcessError = false.
Proof. by destruct l. Qed.

Lemma run_command_eq command description w :
  run_command E command description w =
  let c := spawn E command in
  let told := stdout w ++ announcement description in
  match outcome c with
  | Finished (Exited rc) =>
      (Ret (rc =? 0)%Z,
       World (files_after c (fs w))
             (told ++ [(if (rc =? 0)%Z then "✅ Completed in " else "❌ Failed in ")
                       +:+ fmt_2f (clock w + elapsed c - clock w) +:+ "s"])
             (clock w + elapsed c) (launched w ++ [command]))
  | Finished (CannotStart l) =>
      (Raise (Exception (launch_exception l)),
       World (fs w) told (clock w) (launched w ++ [command]))
  | Interrupted =>
      (Raise KeyboardInterrupt,
       World (files_after c (fs w)) told
             (clock w + elapsed c) (launched w ++ [command]))
  end.
Proof.
  unfold run_command, subprocess_run, log_launch, child_effect, announcement.
  unfold_monad. mcbn.
  destruct (outcome (spawn E command)) as [[rc|l]|]; mcbn.
  - destruct (rc =? 0)%Z; mcbn; norm_out; reflexivity.
  - rewrite launch_exception_not_child_failure. norm_out. reflexivity.
  - norm_out. reflexivity.
Qed.

Lemma generate_summary_eq w :
  generate_summary E w =
  (Ret tt, World (fs w) (stdout w ++ summary_output E (fs w)) (clock w) (launched w)).
Proof.
  unfold generate_summary, summary_output, entry_line, reports, tools_used, for_each.
  cbn [map fst snd].
  repeat step.
  destruct (bool_decide (coverage_path E ∈ fs w)); repeat step;
    rewrite <- ?app_assoc; reflexivity.
Qed.

(** The summary the code prints is the one the specification words. *)
Lemma summary_output_lines files :
  summary_output E files =
  summary_lines (base_dir E)
    (λ name, bool_decide (base_dir E +:+ "/reports/" +:+ name ∈ files))
    (bool_decide (base_dir E +:+ "/reports/full-coverage/index.html" ∈ files)).
Proof.
  unfold summary_output, entry_line, coverage_line, reports. cbn [map fst snd].
  rewrite !reports_file_eq, coverage_path_eq. reflexivity.
Qed.

Lemma run_security_scan_eq w :
  run_security_scan E w =
  match run_command E bandit_command "Security Scan" w with
  | (Ret b1, w1) =>
      match run_command E safety_command "Dependency Security Check" w1 with
      | (Ret b2, w2) => (Ret (b1 && b2), w2)
      | (Raise e, w2) => (Raise e, w2)
      end
  | (Raise e, w1) => (Raise e, w1)
  end.
Proof.
  unfold run_security_scan, security_commands, for_fold.
  unfold mbind, mret, M_bind, M_ret.
  destruct (run_command E bandit_command _ w) as [[b1|e] w1]; [|reflexivity].
  destruct (run_command E safety_command _ w1) as [[b2|e] w2]; [|reflexivity].
  by destruct b1, b2.
Qed.

Lemma main_eq cat w :
  main E (namespace_of cat) w =
  match selected_run E cat (snd (init E w)) with
  | (Ret ok, w1) =>
      (Raise (SystemExit (if ok then 0 else 1)), snd (generate_summary E w1))
  | (Raise KeyboardInterrupt, w1) =>
      (Raise (SystemExit 130), snd (print interrupted_message w1))
  | (Raise e, w1) => (Raise e, w1)
  end.
Proof.
  unfold main, init, mkdir_exist_ok.
  destruct cat; cbn [namespace_of api database unit_ integration security all selected_run];
    unfold mbind, mret, fmap, M_bind, M_ret, M_fmap, try_except, sys_exit, raise;
    cbn [snd];
    match goal with
    | |- context [?run E ?w1] =>
        match type of (run E w1) with (result bool * world)%type =>
          destruct (run E w1) as [[ok|[ |c|e]] w2] end
    end; try reflexivity;
    rewrite generate_summary_eq; reflexivity.
Qed.
End RunnerEquations.


(** ** The process invoker, the summary and the security scan *)

Section Invoker.
Import Runner.
Variable E : env.

Lemma new_output_app w w' out :
  stdout w' = stdout w ++ out → new_output w w' = out.
Proof. unfold new_output. intros ->. apply drop_app_length. Qed.

(** C6.  [run_command] and the child's fate, for every command,
    description and world.  It returns [True] exactly when the child
    exited with code 0; a child that exits with any other code makes it
    return [False], never raise; it raises an error exactly when the
    command could not be started, and the error is the operating
    system's, so a launch failure (an exception) cannot be mistaken for
    a child that ran and failed (the value [False]).  The only other way
    out is a keyboard interrupt delivered to the runner while it waits,
    which passes through unchanged for [main] to handle; it never exits
    the process by itself. *)
Theorem run_command_result command description w :
  let r := fst (run_command E command description w) in
  let o := outcome (spawn E command) in
  (r = Ret true ↔ o = Finished (Exited 0))
  ∧ (∀ rc, rc ≠ 0%Z → o = Finished (Exited rc) → r = Ret false)
  ∧ (∀ e, r = Raise (Exception e)
          ↔ ∃ l, o = Finished (CannotStart l) ∧ e = launch_exception l)
  ∧ (r = Raise KeyboardInterrupt ↔ o = Interrupted)
  ∧ (∀ code, r ≠ Raise (SystemExit code)).
Proof.
  cbn zeta. rewrite run_command_eq. cbn zeta.
  destruct (outcome (spawn E command)) as [[rc|l]|]; cbn [fst].
  - repeat split; try discriminate.
    + intros [= H]. apply Z.eqb_eq in H. by subst.
    + intros [= ->]. reflexivity.
    + intros rc' Hne [= <-]. f_equal. by apply Z.eqb_neq.
    + intros (l & [=] & _).
  - repeat split; try discriminate.
    + intros [= <-]. eauto.
    + intros (l' & [= <-] & ->). reflexivity.
  - repeat split; try discriminate. intros (l & [=] & _).
Qed.

(** C9.  In every world, also one without any report file,
    [generate_summary] returns normally, changes nothing but the
    console (the set of existing paths is the same afterwards, and no
    process is started), and what it prints is, line for line, the
    summary the specification describes ([summary_lines], which is
    written out in full and uses no definition of the runner): the
    header, one line for each of the 5 entries of the fixed list, in
    order, each carrying the check mark when the file of that name
    exists in the reports directory and the cross when it does not, the
    pointer to [full-coverage/index.html] exactly when that file
    exists, and the footer. *)
Theorem generate_summary_observes w :
  ∃ w',
    generate_summary E w = (Ret tt, w')
    ∧ fs w' = fs w
    ∧ launched w' = launched w
    ∧ length reports = 5
    ∧ new_output w w' =
        summary_lines (base_dir E)
          (λ name, bool_decide (base_dir E +:+ "/reports/" +:+ name ∈ fs w))
          (bool_decide (base_dir E +:+ "/reports/full-coverage/index.html" ∈ fs w)).
Proof.
  eexists. split; [apply generate_summary_eq|].
  repeat split. apply new_output_app. cbn [stdout]. by rewrite summary_output_lines.
Qed.

(** C3, amended.  Whenever the first scan returns a success value
    (true or false: its command started and ran to an exit code), the
    second scan is run next, in the world the first one left, whatever
    that value was; the two commands are the ones handed to
    [subprocess.run], in this order; and when the second scan returns a
    value too, [run_security_scan] returns the conjunction of the two
    (so: first false, second true gives false, the second having run).
    If the second scan raises, that exception is the outcome. *)
Theorem security_scan_runs_both w b1 :
  fst (run_command E bandit_command "Security Scan" w) = Ret b1 →
  let w1 := snd (run_command E bandit_command "Security Scan" w) in
  let second := run_command E safety_command "Dependency Security Check" w1 in
  snd (run_security_scan E w) = snd second
  ∧ launched (snd second) = launched w ++ [bandit_command; safety_command]
  ∧ fst (run_security_scan E w) =
      match fst second with
      | Ret b2 => Ret (b1 && b2)
      | Raise e => Raise e
      end.
Proof.
  intros H1. cbn zeta. rewrite run_security_scan_eq.
  assert (Hl : launched (snd (run_command E bandit_command "Security Scan" w))
               = launched w ++ [bandit_command]).
  { rewrite run_command_eq. cbn zeta.
    by destruct (outcome (spawn E bandit_command)) as [[rc|l]|]. }
  destruct (run_command E bandit_command "Security Scan" w) as [r1 w1].
  cbn [fst snd] in *. subst r1.
  rewrite (run_command_eq E safety_command). cbn zeta.
  destruct (outcome (spawn E safety_command)) as [[rc|l]|]; cbn [fst snd launched];
    rewrite Hl; repeat split; by rewrite <- app_assoc.
Qed.
End Invoker.

(** The theorem at work: findings in the static-analysis scan, a clean
    dependency check. *)
Lemma security_scan_runs_both_witness :
  fst (Runner.run_security_scan env_bandit_findings empty_world) = Ret false
  ∧ launched (snd (Runner.run_security_scan env_bandit_findings empty_world))
    = [Runner.bandit_command; Runner.safety_command].
Proof.
  destruct (security_scan_runs_both env_bandit_findings empty_world false)
    as (Hw & Hl & Hr); [reflexivity|].
  split.
  - rewrite Hr. reflexivity.
  - rewrite Hw, Hl. reflexivity.
Defined.

(** C3 as stated fails when the first scanner is not installed: the
    launch error leaves [run_security_scan] at once, no value is
    returned, and the dependency check, which would have passed, is
    never started. *)
Lemma second_scan_skipped_when_first_cannot_start :
  let r := Runner.run_security_scan env_bandit_missing empty_world in
  fst r = Raise (Exception (Runner.launch_exception Runner.NotFound))
  ∧ launched (snd r) = [Runner.bandit_command]
  ∧ Runner.outcome (Runner.spawn env_bandit_missing Runner.safety_command)
    = Runner.Finished (Runner.Exited 0).
Proof. cbn zeta. split; [reflexivity|]. split; reflexivity. Qed.


Example summary_of_empty_directory :
  new_output empty_world (snd (Runner.generate_summary env_all_pass empty_world)) =
  [LF +:+ Runner.rule; "BACKEND TESTING SUMMARY"; Runner.rule;
   LF +:+ "📊 Test Reports:";
   "  ❌ API Tests: /repo/reports/api-tests.html";
   "  ❌ Database Tests: /repo/reports/database-tests.html";
   "  ❌ Unit Tests: /repo/reports/unit-tests.html";
   "  ❌ Integration Tests: /repo/reports/integration-tests.html";
   "  ❌ Complete Test Suite: /repo/reports/all-backend-tests.html";
   LF +:+ "📁 All reports: /repo/reports"]
  ++ Runner.tools_used.
Proof. reflexivity. Qed.

(** ** [main]: summary and exit status *)

Section Main.
Import Runner.
Variable E : env.

(** Running a category whose commands all exit. *)
Lemma selected_run_exits cat w :
  Forall (exits E) (commands_of cat) →
  ∃ ok out w1,
    selected_run E cat w = (Ret ok, w1)
    ∧ stdout w1 = stdout w ++ out
    ∧ launched w1 = launched w ++ commands_of cat.
Proof.
  intros H.
  destruct cat; cbn [commands_of selected_run map fst security_commands] in *;
    unfold run_api_tests, run_database_tests, run_unit_tests,
      run_integration_tests, run_all_tests.
  1-4,6: apply Forall_cons in H as [[rc Hrc] _];
    rewrite run_command_eq; cbn zeta; rewrite Hrc;
    do 3 eexists; split; [reflexivity|]; cbn [stdout launched];
    split; [by rewrite <- app_assoc | done].
  apply Forall_cons in H as [[rc1 H1] H]. apply Forall_cons in H as [[rc2 H2] _].
  rewrite run_security_scan_eq, run_command_eq. cbn zeta. rewrite H1.
  rewrite run_command_eq. cbn zeta. rewrite H2.
  do 3 eexists. split; [reflexivity|]. cbn [stdout launched fs clock].
  split; [by rewrite <- !app_assoc | by rewrite <- app_assoc].
Qed.

(** C2, amended.  For every category, if each of its commands starts
    and runs to an exit code (zero or not), then the process ends
    through [sys.exit] with status 0 or 1 according to the run's result,
    and the last thing printed before that is the complete summary,
    computed from the files existing after the run; all commands of the
    category were launched. *)
Theorem summary_after_completed_run cat w :
  Forall (exits E) (commands_of cat) →
  ∃ (ok : bool) run_out w',
    run_process (main E (namespace_of cat)) w = ((if ok then 0 else 1)%Z, w')
    ∧ fst (selected_run E cat (snd (init E w))) = Ret ok
    ∧ new_output w w' = run_out ++ summary_output E (fs w')
    ∧ launched w' = launched w ++ commands_of cat.
Proof.
  intros H.
  destruct (selected_run_exits cat (snd (init E w)) H) as (ok & out & w1 & Hrun & Hout & Hl).
  exists ok, out. eexists.
  unfold run_process. rewrite main_eq, Hrun, generate_summary_eq. cbn [fst snd].
  split; [reflexivity|]. split; [reflexivity|]. cbn [fs stdout launched].
  split; [|exact Hl].
  apply new_output_app. rewrite Hout. cbn [init mkdir_exist_ok snd stdout].
  by rewrite <- app_assoc.
Qed.

Lemma process_when_run_returns cat w ok w1 :
  selected_run E cat (snd (init E w)) = (Ret ok, w1) →
  run_process (main E (namespace_of cat)) w =
  ((if ok then 0 else 1)%Z, snd (generate_summary E w1)).
Proof. intros H. unfold run_process. rewrite main_eq, H. reflexivity. Qed.

Lemma process_when_interrupted cat w w1 :
  selected_run E cat (snd (init E w)) = (Raise KeyboardInterrupt, w1) →
  run_process (main E (namespace_of cat)) w =
  (130%Z, snd (print interrupted_message w1)).
Proof. intros H. unfold run_process. rewrite main_eq, H. reflexivity. Qed.

Ltac differs :=
  let H := fresh in
  intros H; unfold traceback, LF, rule in H;
  cbn [String.append str_mul] in H; discriminate H.

Lemma run_command_prints_no_traceback command description w :
  ∃ out, stdout (snd (run_command E command description w)) = stdout w ++ out
         ∧ traceback ∉ out.
Proof.
  rewrite run_command_eq. cbn zeta. unfold announcement.
  destruct (outcome (spawn E command)) as [[rc|l]|]; cbn [snd stdout].
  - rewrite <- app_assoc. eexists. split; [reflexivity|]. cbn [app].
    rewrite !not_elem_of_cons. repeat split; try differs.
    + destruct (rc =? 0)%Z; differs.
    + apply not_elem_of_nil.
  - eexists. split; [reflexivity|].
    rewrite !not_elem_of_cons. repeat split; try differs. apply not_elem_of_nil.
  - eexists. split; [reflexivity|].
    rewrite !not_elem_of_cons. repeat split; try differs. apply not_elem_of_nil.
Qed.

Lemma run_command_interrupted command description w :
  outcome (spawn E command) = Interrupted →
  fst (run_command E command description w) = Raise KeyboardInterrupt.
Proof. intros H. rewrite run_command_eq. cbn zeta. by rewrite H. Qed.

Lemma run_command_exits command description w :
  exits E command →
  ∃ ok, fst (run_command E command description w) = Ret ok.
Proof. intros [rc H]. rewrite run_command_eq. cbn zeta. rewrite H. eauto. Qed.

Lemma interrupted_run cat w :
  interrupted_during E cat →
  ∃ out w1,
    selected_run E cat w = (Raise KeyboardInterrupt, w1)
    ∧ stdout w1 = stdout w ++ out
    ∧ traceback ∉ out.
Proof.
  intros (before & cmd & after & Hcmds & Hbefore & Hint).
  assert (Hone : ∀ c description,
            commands_of cat = [c] →
            ∃ out w1, run_command E c description w = (Raise KeyboardInterrupt, w1)
                      ∧ stdout w1 = stdout w ++ out ∧ traceback ∉ out).
  { intros c description Hc. rewrite Hc in Hcmds.
    destruct before as [|x before]; [|by destruct before].
    injection Hcmds as Heq _. subst cmd.
    destruct (run_command_prints_no_traceback c description w) as (out & Hout & Hno).
    pose proof (run_command_interrupted c description w Hint) as Hr.
    destruct (run_command E c description w) as [r w1]. cbn [fst snd] in *.
    subst r. eauto. }
  destruct cat; cbn [selected_run].
  - exact (Hone api_command "API Black Box Tests" eq_refl).
  - exact (Hone database_command "Database Tests with Factory Boy" eq_refl).
  - exact (Hone unit_command "Unit Tests with Coverage" eq_refl).
  - exact (Hone integration_command "Integration Tests" eq_refl).
  - cbn [commands_of map fst security_commands] in Hcmds.
    rewrite run_security_scan_eq.
    destruct (run_command_prints_no_traceback bandit_command "Security Scan" w)
      as (out1 & Hout1 & Hno1).
    destruct before as [|x [|y before]].
    + injection Hcmds as <- _.
      pose proof (run_command_interrupted bandit_command "Security Scan" w Hint) as Hr.
      destruct (run_command E bandit_command "Security Scan" w) as [r w1].
      cbn [fst snd] in *. subst r. eauto.
    + injection Hcmds as <- <- _.
      apply Forall_cons in Hbefore as [Hb _].
      destruct (run_command_exits bandit_command "Security Scan" w Hb) as [ok Hok].
      destruct (run_command E bandit_command "Security Scan" w) as [r w1].
      cbn [fst snd] in *. subst r.
      destruct (run_command_prints_no_traceback safety_command
                  "Dependency Security Check" w1) as (out2 & Hout2 & Hno2).
      pose proof (run_command_interrupted safety_command
                    "Dependency Security Check" w1 Hint) as Hr.
      destruct (run_command E safety_command "Dependency Security Check" w1) as [r w2].
      cbn [fst snd] in *. subst r.
      exists (out1 ++ out2), w2. split; [reflexivity|].
      split; [by rewrite Hout2, Hout1, <- app_assoc|].
      by apply not_elem_of_app.
    + by destruct before.
  - exact (Hone all_command "All Backend Tests" eq_refl).
Qed.

(** C4.  For every category and world: if the selected run returns
    [True] the exit status is 0; if it returns [False] the exit status
    is 1, as it is when the run ends in an error; and if a keyboard
    interrupt arrives while a command of the category runs, the run is
    abandoned, the exit status is 130, the last line printed is the
    interruption notice and no stack trace is printed. *)
Theorem main_exit_code cat w :
  let run := fst (selected_run E cat (snd (init E w))) in
  let p := run_process (main E (namespace_of cat)) w in
  (run = Ret true → fst p = 0%Z)
  ∧ (run = Ret false → fst p = 1%Z)
  ∧ (∀ e, run = Raise (Exception e) → fst p = 1%Z)
  ∧ (interrupted_during E cat →
       run = Raise KeyboardInterrupt
       ∧ fst p = 130%Z
       ∧ (traceback ∉ new_output w (snd p))
       ∧ last (new_output w (snd p)) = Some interrupted_message).
Proof.
  cbn zeta. split; [|split; [|split]].
  - intros H. destruct (selected_run E cat (snd (init E w))) as [r w1] eqn:Hrun.
    cbn [fst] in H. subst r. by rewrite (process_when_run_returns _ _ _ _ Hrun).
  - intros H. destruct (selected_run E cat (snd (init E w))) as [r w1] eqn:Hrun.
    cbn [fst] in H. subst r. by rewrite (process_when_run_returns _ _ _ _ Hrun).
  - intros e H. unfold run_process. rewrite main_eq.
    destruct (selected_run E cat (snd (init E w))) as [r w1].
    cbn [fst] in H. by subst r.
  - intros H.
    destruct (interrupted_run cat (snd (init E w)) H) as (out & w1 & Hrun & Hout & Hno).
    rewrite (process_when_interrupted _ _ _ Hrun), Hrun. cbn [fst snd print stdout].
    split; [reflexivity|]. split; [reflexivity|].
    rewrite (new_output_app w _ (out ++ [interrupted_message])).
    + split; [|apply last_snoc].
      apply not_elem_of_app. split; [exact Hno|].
      rewrite not_elem_of_cons. split; [|apply not_elem_of_nil].
      unfold interrupted_message. differs.
    + cbn [stdout]. rewrite Hout. cbn [init mkdir_exist_ok snd stdout].
      by rewrite <- app_assoc.
Qed.
End Main.

(** The theorem at work: Ctrl-C during the second scan of a security
    run. *)
Lemma main_exit_code_witness :
  interrupted_during env_ctrl_c_in_second_scan Security
  ∧ fst (run_process (Runner.main env_ctrl_c_in_second_scan (namespace_of Security))
           empty_world) = 130%Z.
Proof.
  assert (H : interrupted_during env_ctrl_c_in_second_scan Security).
  { exists [Runner.bandit_command], Runner.safety_command, [].
    split; [reflexivity|]. split; [|reflexivity].
    repeat constructor. exists 0%Z. reflexivity. }
  split; [exact H|].
  destruct (main_exit_code env_ctrl_c_in_second_scan Security empty_world)
    as (_ & _ & _ & Hint).
  destruct (Hint H) as (_ & Hcode & _). exact Hcode.
Defined.

(** The theorem at work: a failing security run still ends with the
    summary. *)
Lemma summary_after_completed_run_witness :
  Forall (exits env_bandit_findings) (commands_of Security)
  ∧ ∃ (ok : bool) run_out w',
      run_process (Runner.main env_bandit_findings (namespace_of Security)) empty_world
      = ((if ok then 0 else 1)%Z, w')
      ∧ fst (selected_run env_bandit_findings Security
               (snd (Runner.init env_bandit_findings empty_world))) = Ret ok
      ∧ new_output empty_world w' = run_out ++ summary_output env_bandit_findings (fs w')
      ∧ launched w' = launched empty_world ++ commands_of Security.
Proof.
  assert (H : Forall (exits env_bandit_findings) (commands_of Security)).
  { repeat constructor; eexists; reflexivity. }
  split; [exact H|].
  exact (summary_after_completed_run env_bandit_findings Security empty_world H).
Defined.

(** C2 as stated fails when the command cannot be launched: the
    [FileNotFoundError] leaves [run_command] and [main] (which handles
    only [KeyboardInterrupt]); the interpreter prints a stack trace and
    exits with status 1, and no summary is printed. *)
Lemma summary_skipped_when_command_cannot_start :
  let p := run_process (Runner.main env_pytest_missing (namespace_of API)) empty_world in
  fst p = 1%Z
  ∧ stdout (snd p) = announcement "API Black Box Tests" ++ [traceback]
  ∧ Runner.summary_banner ∉ stdout (snd p).
Proof.
  cbn zeta. split; [reflexivity|]. split; [reflexivity|].
  apply (bool_decide_unpack _). vm_compute. exact I.
Qed.



Section Coverage.
Import Runner.
Variable E : env.

Lemma coverage_line_only_for_coverage_path files :
  coverage_line E ∈ summary_output E files ↔ coverage_path E ∈ files.
Proof.
  unfold summary_output, reports, tools_used. cbn [map app].
  case_bool_decide as Hc; cbn [app].
  - split; [done|]. intros _. rewrite !elem_of_cons. do 9 right. by left.
  - split; [|done]. rewrite !elem_of_cons, elem_of_nil.
    unfold coverage_line, entry_line, report_line, summary_banner.
    intros H. exfalso.
    repeat (destruct H as [H|H];
            [ unfold LF, rule in H; cbn [String.append str_mul fst snd] in H;
              try discriminate H;
              try (destruct (bool_decide _) in H; discriminate H) |]).
    exact H.
Qed.

Lemma unit_artifacts :
  declared_artifacts unit_command =
  ["reports/coverage/index.html"; "reports/unit-tests.html"].
Proof. reflexivity. Qed.

Lemma summary_lines_ext base (p q : string → bool) c :
  (∀ name, name ∈ map fst reports → p name = q name) →
  summary_lines base p c = summary_lines base q c.
Proof.
  intros H. unfold summary_lines. cbn beta zeta.
  rewrite (H "api-tests.html"), (H "database-tests.html"), (H "unit-tests.html"),
    (H "integration-tests.html"), (H "all-backend-tests.html");
    [reflexivity|..]; cbn [map fst reports]; rewrite !elem_of_cons; tauto.
Qed.

(** What exists below the reports directory after a unit run that
    started from a fresh directory and wrote there only the report and
    the coverage pages. *)
Lemma below_reports_after_unit_run w name :
  fresh_reports E w →
  (∀ p, p ∈ written (spawn E unit_command) →
        String.prefix (reports_dir E +:+ "/") p = true →
        p = path_join (reports_dir E) "unit-tests.html"
        ∨ String.prefix (reports_dir E +:+ "/coverage/") p = true) →
  name ≠ EmptyString →
  name ≠ "unit-tests.html" →
  String.prefix "coverage/" name = false →
  base_dir E +:+ "/reports/" +:+ name
  ∉ files_after (spawn E unit_command) (fs w ∪ {[reports_dir E]}).
Proof.
  intros Hfresh Honly Hne Hname Hcov.
  assert (Hbelow : String.prefix (reports_dir E +:+ "/")
                     (base_dir E +:+ "/reports/" +:+ name) = true).
  { rewrite reports_dir_eq, append_assoc.
    change ("/reports" +:+ "/") with "/reports/".
    rewrite prefix_append_both. apply (prefix_append "/reports/"). }
  unfold files_after. rewrite not_elem_of_union. split.
  - intros Hin. apply elem_of_difference in Hin as [Hin _].
    apply elem_of_union in Hin as [Hin|Hin].
    + apply Hfresh in Hin. congruence.
    + apply elem_of_singleton in Hin. rewrite reports_dir_eq in Hin.
      apply append_cancel in Hin. destruct name; [done | discriminate Hin].
  - rewrite elem_of_list_to_set. intros Hin.
    destruct (Honly _ Hin Hbelow) as [Heq|Hpre].
    + rewrite reports_file_eq in Heq. apply append_cancel in Heq.
      apply (append_cancel "/reports/") in Heq. done.
    + rewrite reports_dir_eq, append_assoc, prefix_append_both in Hpre.
      change (String.prefix ("/reports/" +:+ "coverage/") ("/reports/" +:+ name) = true)
        in Hpre.
      rewrite prefix_append_both in Hpre. congruence.
Qed.

(** C10.  [generate_summary] points to the coverage report only when
    [reports/full-coverage/index.html] exists.  So after a [--unit] run
    into a fresh reports directory, the child having run to an exit
    code, written the artifacts its command line names and, below the
    reports directory, nothing but the HTML report and files of the
    coverage directory (what else it writes or deletes elsewhere is
    free), the coverage report of the run exists
    ([reports/coverage/index.html]), the path the summary looks for does
    not, and the output of the run is exactly the announcement, the
    line with the duration, and the summary with the unit report as the
    only one present and without any coverage line: no line of it names
    a coverage path. *)
Theorem unit_coverage_not_in_summary w rc :
  fresh_reports E w →
  outcome (spawn E unit_command) = Finished (Exited rc) →
  (∀ p, p ∈ declared_artifacts unit_command →
        path_join (base_dir E) p ∈ written (spawn E unit_command)) →
  (∀ p, p ∈ written (spawn E unit_command) →
        String.prefix (reports_dir E +:+ "/") p = true →
        p = path_join (reports_dir E) "unit-tests.html"
        ∨ String.prefix (reports_dir E +:+ "/coverage/") p = true) →
  let w' := snd (run_process (main E (namespace_of Unit)) w) in
  path_join (base_dir E) "reports/coverage/index.html" ∈ fs w'
  ∧ (coverage_path E ∉ fs w')
  ∧ new_output w w' =
      [LF +:+ "==================================================";
       "Running: Unit Tests with Coverage";
       "==================================================";
       (if (rc =? 0)%Z then "✅ Completed in " else "❌ Failed in ")
       +:+ fmt_2f (elapsed (spawn E unit_command)) +:+ "s"]
      ++ summary_lines (base_dir E) (λ name, String.eqb name "unit-tests.html") false.
Proof.
  intros Hfresh Hrun Hwritten Honly. cbn zeta.
  assert (Hsel : selected_run E Unit (snd (init E w)) = run_command E unit_command
                   "Unit Tests with Coverage" (snd (init E w))) by reflexivity.
  rewrite run_command_eq in Hsel. cbn zeta in Hsel. rewrite Hrun in Hsel.
  rewrite (process_when_run_returns E Unit w _ _ Hsel), generate_summary_eq.
  cbn [snd fs stdout clock init mkdir_exist_ok].
  set (files := files_after _ _).
  assert (Hin : ∀ p, p ∈ declared_artifacts unit_command →
                     path_join (base_dir E) p ∈ files).
  { intros p Hp. subst files. unfold files_after.
    apply elem_of_union_r, elem_of_list_to_set. by apply Hwritten. }
  assert (Hout : ∀ name, name ≠ EmptyString → name ≠ "unit-tests.html" →
                         String.prefix "coverage/" name = false →
                         bool_decide (base_dir E +:+ "/reports/" +:+ name ∈ files) = false).
  { intros name H1 H2 H3. apply bool_decide_eq_false.
    by apply below_reports_after_unit_run. }
  split; [|split].
  - apply Hin. rewrite unit_artifacts. apply elem_of_cons. by left.
  - rewrite coverage_path_eq.
    apply (bool_decide_eq_false _), (Hout "full-coverage/index.html"); done.
  - erewrite new_output_app; [|by rewrite <- !app_assoc].
    rewrite summary_output_lines, N.add_comm, N.add_sub.
    change (base_dir E +:+ "/reports/full-coverage/index.html")
      with (base_dir E +:+ "/reports/" +:+ "full-coverage/index.html").
    rewrite (Hout "full-coverage/index.html") by done.
    unfold announcement. cbn [app]. do 4 f_equal.
    apply summary_lines_ext. intros name Hname.
    cbn [map fst reports] in Hname. rewrite !elem_of_cons, elem_of_nil in Hname.
    destruct Hname as [->|[->|[->|[->|[->|[]]]]]];
      first [ by apply Hout | apply bool_decide_eq_true_2 ].
    apply (Hin "reports/unit-tests.html"). rewrite unit_artifacts.
    apply elem_of_cons. right. apply elem_of_cons. by left.
Qed.
End Coverage.

(** The theorem at work: a unit run in a checkout where no test has
    been run yet. *)
Lemma unit_coverage_not_in_summary_witness :
  let w' := snd (run_process (Runner.main env_unit_run (namespace_of Unit)) checkout_world) in
  "/repo/reports/coverage/index.html" ∈ fs w'
  ∧ ("/repo/reports/full-coverage/index.html" ∉ fs w')
  ∧ new_output checkout_world w' =
      [LF +:+ "==================================================";
       "Running: Unit Tests with Coverage";
       "==================================================";
       "✅ Completed in 2.31s"]
      ++ summary_lines "/repo" (λ name, String.eqb name "unit-tests.html") false.
Proof.
  apply (unit_coverage_not_in_summary env_unit_run checkout_world 0).
  - intros p Hp. unfold checkout_world in Hp. cbn [fs] in Hp.
    apply elem_of_list_to_set in Hp.
    rewrite !elem_of_cons, elem_of_nil in Hp.
    destruct Hp as [->|[->|[->|[]]]]; reflexivity.
  - reflexivity.
  - intros p Hp.
    change (p ∈ ["reports/coverage/index.html"; "reports/unit-tests.html"]) in Hp.
    rewrite !elem_of_cons, elem_of_nil in Hp.
    destruct Hp as [->|[->|[]]]; cbn [env_unit_run Runner.spawn Runner.written];
      rewrite !elem_of_cons; [right; left | left]; reflexivity.
  - intros p Hp. cbn [env_unit_run Runner.spawn Runner.written] in Hp.
    rewrite !elem_of_cons, elem_of_nil in Hp.
    destruct Hp as [->|[->|[->|[->|[->|[->|[->|[]]]]]]]]; intros Hpre;
      first [ discriminate Hpre | by left | by right ].
Defined.


Example all_category_exit_status :
  fst (run_process (Runner.main env_all_pass (namespace_of All)) empty_world) = 0%Z.
Proof. reflexivity. Qed.

Example interrupt_exit_status :
  fst (run_process (Runner.main env_ctrl_c (namespace_of All)) empty_world) = 130%Z.
Proof. reflexivity. Qed.

(** * Properties of the verification script *)

Section VersionAndTimeouts.
Import Verify.
Variable E : env.

(** C8, amended.  The version check always returns, and it passes
    exactly when the major version is 3 and the minor version is at
    least 9.  For interpreters of major version up to 3 that is the
    same as being at least 3.9. *)
Theorem check_python_version_result w :
  ∃ b, fst (check_python_version E w) = Ret b
       ∧ (b = true ↔ major (version E) = 3%N ∧ (9 ≤ minor (version E))%N)
       ∧ ((major (version E) ≤ 3)%N → b = version_at_least (version E) 3 9).
Proof.
  unfold check_python_version, version_at_least. unfold_monad.
  destruct (N.eqb_spec (major (version E)) 3) as [Hmaj|Hmaj];
    destruct (N.leb_spec 9 (minor (version E))) as [Hmin|Hmin]; cbn [andb fst];
    eexists; (split; [reflexivity|]); split.
  - by split.
  - intros _. by rewrite orb_true_r.
  - split; [done|]. intros [_ H]. lia.
  - intros _. rewrite Hmaj. reflexivity.
  - split; [done|]. intros [H _]. done.
  - intros Hle. rewrite orb_false_r. symmetry. apply N.ltb_ge. lia.
  - split; [done|]. intros [H _]. done.
  - intros Hle. rewrite orb_false_r. symmetry. apply N.ltb_ge. lia.
Qed.

(** C7.  When the child of the collection dry run is still running
    after 30 seconds, or that of the sample test after 60, the check
    returns [False]: it does not raise, it has waited exactly the
    timeout, and its last line reports the timeout. *)
Theorem timeout_is_a_failed_check w :
  (outlasts E (collect_command E) 30 →
     let r := run_quick_test E w in
     fst r = Ret false
     ∧ clock (snd r) = (clock w + seconds 30)%N
     ∧ last (stdout (snd r)) = Some "❌ Pytest collection - Timeout")
  ∧ (outlasts E (sample_command E) 60 →
     let r := run_sample_backend_test E w in
     fst r = Ret false
     ∧ clock (snd r) = (clock w + seconds 60)%N
     ∧ last (stdout (snd r)) = Some "❌ Sample test - Timeout").
Proof.
  unfold outlasts, run_quick_test, run_sample_backend_test, subprocess_run.
  unfold_monad. split; intros H; cbn zeta; cbn [fs stdout clock launched].
  - destruct (child E (collect_command E)) as [after rc out err| |e]; [| |done].
    + apply N.leb_gt in H. rewrite H. cbn. by rewrite last_snoc.
    + cbn. by rewrite last_snoc.
  - destruct (child E (sample_command E)) as [after rc out err| |e]; [| |done].
    + apply N.leb_gt in H. rewrite H. cbn. by rewrite last_snoc.
    + cbn. by rewrite last_snoc.
Qed.

(** Whatever the child does (also when it cannot be started), the two
    subprocess checks return a verdict; nothing escapes them. *)
Lemma subprocess_checks_return w :
  (∃ b, fst (run_quick_test E w) = Ret b)
  ∧ (∃ b, fst (run_sample_backend_test E w) = Ret b).
Proof.
  unfold run_quick_test, run_sample_backend_test, subprocess_run. unfold_monad.
  split.
  - destruct (child E (collect_command E)) as [after rc out err| |e]; cbn.
    + destruct (after <=? seconds 30)%N; cbn; [destruct (rc =? 0)%Z|]; cbn; eauto.
    + eauto.
    + destruct (isinstance e TimeoutExpired); cbn; eauto.
  - destruct (child E (sample_command E)) as [after rc out err| |e]; cbn.
    + destruct (after <=? seconds 60)%N; cbn; [destruct (rc =? 0)%Z|]; cbn; eauto.
    + eauto.
    + destruct (isinstance e TimeoutExpired); cbn; eauto.
Qed.
End VersionAndTimeouts.

(** C8 as stated fails above major version 3: 4.0.0 is at least 3.9,
    yet the check rejects it. *)
Lemma python_4_is_rejected :
  version_at_least (Verify.Version 4 0 0) 3 9 = true
  ∧ fst (Verify.check_python_version
           (with_version (Verify.Version 4 0 0) env_ready) empty_world) = Ret false.
Proof. split; reflexivity. Qed.


(** The theorem at work: a collection run that never ends and a sample
    test that needs 60.01 seconds. *)
Lemma timeout_is_a_failed_check_witness :
  fst (Verify.run_quick_test env_slow_children repo_world) = Ret false
  ∧ fst (Verify.run_sample_backend_test env_slow_children repo_world) = Ret false.
Proof.
  destruct (timeout_is_a_failed_check env_slow_children repo_world) as [Hq Hs].
  split.
  - apply Hq. exact I.
  - apply Hs. cbn. reflexivity.
Defined.


(** ** Checks raise nothing but ordinary errors *)

Section ErrorsOnly.
Context {A B : Type}.

Lemma errors_only_ret (a : A) : errors_only (mret a).
Proof. intros w. exact I. Qed.

Lemma errors_only_raise (e : error) : errors_only (raise (A := A) (Exception e)).
Proof. intros w. exact I. Qed.

Lemma errors_only_bind (m : M A) (f : A → M B) :
  errors_only m → (∀ a, errors_only (f a)) → errors_only (m ≫= f).
Proof.
  intros Hm Hf w. specialize (Hm w). unfold mbind, M_bind.
  destruct (m w) as [[a|e] w1]; cbn [fst] in *; [apply Hf | exact Hm].
Qed.

Lemma errors_only_try (m : M A) (h : exn → option (M A)) :
  errors_only m →
  (∀ e k, h (Exception e) = Some k → errors_only k) →
  errors_only (try_except m h).
Proof.
  intros Hm Hh w. specialize (Hm w). unfold try_except.
  destruct (m w) as [[a|e] w1]; cbn [fst] in *; [exact I|].
  destruct e as [ |c|e]; try done.
  destruct (h (Exception e)) as [k|] eqn:Hk; [by apply (Hh e k) | exact I].
Qed.
End ErrorsOnly.

Lemma errors_only_print s : errors_only (print s).
Proof. intros w. exact I. Qed.

Lemma errors_only_path_exists p : errors_only (path_exists p).
Proof. intros w. exact I. Qed.

Lemma errors_only_for_fold {A S} (l : list A) (body : A → S → M S) (s : S) :
  (∀ x s, errors_only (body x s)) → errors_only (for_fold l body s).
Proof.
  intros Hbody. revert s.
  induction l as [|x l IH]; intros s; cbn [for_fold].
  - apply errors_only_ret.
  - apply errors_only_bind; auto.
Qed.

Lemma errors_only_unlink p : errors_only (Verify.unlink p).
Proof. intros w. unfold Verify.unlink. by destruct (bool_decide _). Qed.

Lemma errors_only_named_temporary_file E suffix :
  errors_only (Verify.named_temporary_file E suffix).
Proof.
  intros w. unfold Verify.named_temporary_file. by destruct (Verify.mkstemp E suffix).
Qed.

Lemma errors_only_subprocess_run E command timeout :
  errors_only (Verify.subprocess_run E command timeout).
Proof.
  intros w. unfold Verify.subprocess_run.
  destruct (Verify.child E command) as [after rc out err| |e]; try exact I.
  by destruct (after <=? _)%N.
Qed.

(** One syntax-directed step of an [errors_only] proof. *)
Ltac errors_only_step :=
  cbn beta zeta;
  lazymatch goal with
  | |- errors_only (mret _) => apply errors_only_ret
  | |- errors_only (raise (Exception _)) => apply errors_only_raise
  | |- errors_only (print _) => apply errors_only_print
  | |- errors_only (path_exists _) => apply errors_only_path_exists
  | |- errors_only (Verify.unlink _) => apply errors_only_unlink
  | |- errors_only (Verify.named_temporary_file _ _) =>
      apply errors_only_named_temporary_file
  | |- errors_only (Verify.subprocess_run _ _ _) => apply errors_only_subprocess_run
  | |- errors_only (_ ≫= _) => apply errors_only_bind; [| intros ?]
  | |- errors_only (for_fold _ _ _) => apply errors_only_for_fold; intros ? ?
  | |- errors_only (try_except _ _) =>
      apply errors_only_try;
      [| let e := fresh "e" in
         let k := fresh "k" in
         let H := fresh "H" in
         intros e k H; cbn beta iota in H;
         repeat match type of H with
                | (if ?c then _ else _) = _ => destruct c
                end;
         try discriminate H; injection H as <-]
  | |- errors_only (if ?b then _ else _) => destruct b
  | |- errors_only (match ?x with _ => _ end) => destruct x
  end.

Ltac errors_only := repeat errors_only_step.

Section EightChecks.
Import Verify.
Variable E : env.

Lemma checks_raise_errors_only :
  Forall (λ c, errors_only (snd c)) (checks E).
Proof.
  unfold checks.
  repeat (apply Forall_cons; split); [..|done]; cbn [snd].
  - unfold check_python_version. errors_only.
  - unfold check_required_packages, importlib_import_module. errors_only.
  - unfold check_internet_connectivity. errors_only.
  - unfold check_database_functionality, sqlite. errors_only.
  - unfold check_test_files_exist. errors_only.
  - unfold run_syntax_check, open_and_compile. errors_only.
  - unfold run_quick_test. errors_only.
  - unfold run_sample_backend_test. errors_only.
Qed.
End EightChecks.


(** ** The sequence of checks *)

Lemma passed_le bs : passed bs ≤ length bs.
Proof. induction bs as [|[] bs IH]; cbn; lia. Qed.

Lemma passed_all bs : passed bs = length bs ↔ forallb id bs = true.
Proof.
  induction bs as [|[] bs IH]; cbn; [done| |].
  - rewrite <- IH. lia.
  - pose proof (passed_le bs). split; [lia|done].
Qed.

Lemma check_trace_length cs w bs w' :
  check_trace cs w bs w' → length bs = length cs.
Proof. induction 1; cbn; congruence. Qed.

Section Sequence.
Import Verify.

(** The loop of [main] visits every check: a check that fails or
    raises an error does not end it. *)
Lemma run_checks_trace cs :
  Forall (λ c, errors_only (snd c)) cs →
  ∀ w, ∃ bs w', check_trace cs w bs w' ∧ run_checks cs w = (Ret (passed bs), w').
Proof.
  unfold run_checks.
  match goal with |- context [for_fold cs ?body 0] => set (step := body) end.
  intros Hcs.
  enough (G : ∀ k w, ∃ bs w',
            check_trace cs w bs w' ∧ for_fold cs step k w = (Ret (k + passed bs), w'))
    by (intros w; apply (G 0 w)).
  induction cs as [|[name check] cs IH]; intros k w.
  - exists [], w. split; [constructor|]. cbn. by rewrite Nat.add_0_r.
  - apply Forall_cons in Hcs as [Hc Hcs]. cbn [snd] in Hc.
    specialize (Hc w). specialize (IH Hcs).
    cbn [for_fold]. unfold mbind at 1, M_bind at 1.
    destruct (check w) as [[b|[ |c|e]] w1] eqn:Hcheck; cbn [fst] in Hc; try done.
    + assert (Hs : step (name, check) k w = (Ret (if b then k + 1 else k), w1)).
      { subst step. cbn beta iota. unfold try_except, mbind, M_bind, mret, M_ret.
        by rewrite Hcheck. }
      rewrite Hs.
      destruct (IH (if b then k + 1 else k) w1) as (bs & w' & Htr & Hrun).
      exists (b :: bs), w'. split; [by eapply trace_returned|].
      rewrite Hrun. destruct b; cbn [passed]; do 2 f_equal; lia.
    + assert (Hs : step (name, check) k w
                   = (Ret k, snd (print (unexpected name e) w1))).
      { subst step. cbn beta iota.
        unfold try_except, mbind, M_bind, mret, M_ret. by rewrite Hcheck. }
      rewrite Hs.
      destruct (IH k (snd (print (unexpected name e) w1))) as (bs & w' & Htr & Hrun).
      exists (false :: bs), w'. split; [by eapply trace_raised|]. exact Hrun.
Qed.

Variable E : env.

(** The script, by the outcome of its own [import requests]. *)
Lemma script_eq w :
  script E w =
  match import_module E "requests" with
  | Some e => (Raise (Exception e), w)
  | None => (success ← main E; sys_exit (if (success : bool) then 0 else 1)%Z) w
  end.
Proof.
  unfold script, module_imports, import_, importlib_import_module.
  by destruct (import_module E "requests").
Qed.

(** When [requests] does not import, the script ends at its second
    line of imports: a stack trace, status 1, and nothing else. *)
Lemma script_without_requests w e :
  import_module E "requests" = Some e →
  run_process (script E) w = (1%Z, snd (print traceback w)).
Proof. intros H. unfold run_process. by rewrite script_eq, H. Qed.

End Sequence.



(** ** The SQLite smoke test and its temporary file *)

Section Database.
Import Verify.
Variable E : env.

(** Any error between the creation of the temporary file and its
    removal sends control to the [except] clause, past the [unlink]. *)
Lemma database_file_left_after_error w name s e :
  mkstemp E ".db" = inl name →
  sqlite_fails E s = Some e →
  fst (check_database_functionality E w) = Ret false
  ∧ name ∈ fs (snd (check_database_functionality E w)).
Proof.
  intros Hname Hs.
  unfold check_database_functionality, named_temporary_file, sqlite.
  rewrite Hname. unfold_monad. cbn [fs stdout clock launched].
  destruct (sqlite_fails E Connect) eqn:H1; [split; [done | cbn; set_solver]|].
  destruct (sqlite_fails E Cursor) eqn:H2; [split; [done | cbn; set_solver]|].
  destruct (sqlite_fails E CreateTable) eqn:H3; [split; [done | cbn; set_solver]|].
  destruct (sqlite_fails E InsertRow) eqn:H4; [split; [done | cbn; set_solver]|].
  destruct (sqlite_fails E SelectRow) eqn:H5; [split; [done | cbn; set_solver]|].
  destruct (sqlite_fails E FetchOne) eqn:H6; [split; [done | cbn; set_solver]|].
  destruct (sqlite_fails E Commit) eqn:H7; [split; [done | cbn; set_solver]|].
  destruct (sqlite_fails E Close) eqn:H8; [split; [done | cbn; set_solver]|].
  destruct s; congruence.
Qed.

(** X6.  When no step of the smoke test raises, the check returns
    [True] exactly when the row read back has the name "Test User", and
    the temporary file is gone afterwards, whichever the verdict. *)
Lemma database_file_removed_without_error w name :
  mkstemp E ".db" = inl name →
  (∀ s, sqlite_fails E s = None) →
  fst (check_database_functionality E w)
    = Ret (match fetched E with
           | Some r => String.eqb (row_name r) "Test User"
           | None => false
           end)
  ∧ name ∉ fs (snd (check_database_functionality E w)).
Proof.
  intros Hname Hok.
  unfold check_database_functionality, named_temporary_file, sqlite, unlink.
  rewrite Hname, !Hok. unfold_monad. cbn [fs stdout clock launched].
  rewrite bool_decide_eq_true_2 by set_solver.
  destruct (fetched E) as [r|]; [destruct (String.eqb (row_name r) "Test User")|];
    (split; [reflexivity |]); cbn [snd fs];
    rewrite elem_of_difference, elem_of_singleton; tauto.
Qed.
End Database.

(** C1, on a run where the claim fails.  The temporary file is created,
    the [INSERT] raises a database error, the check reports failure
    through its [except] clause, and the file, which did not exist
    before the check, exists after it: the [unlink] was skipped. *)
Theorem database_check_leaves_file_on_error :
  let r := Verify.check_database_functionality env_insert_fails repo_world in
  fst r = Ret false
  ∧ ("/tmp/tmpk3v9x1qa.db" ∉ fs repo_world)
  ∧ "/tmp/tmpk3v9x1qa.db" ∈ fs (snd r).
Proof.
  cbn zeta. split; [reflexivity|]. split.
  - apply (bool_decide_unpack _). vm_compute. exact I.
  - apply (database_file_left_after_error env_insert_fails repo_world _
             Verify.InsertRow (Error sqlite3_Error "disk I/O error")); reflexivity.
Qed.

(** C5, on a run where the claim fails.  On a machine without the
    [requests] package the script stops at its own [import requests],
    before [main] is entered: the process ends with a stack trace and
    status 1, nothing else is printed (no check has run and no count is
    given), and no child process was started.  Yet the package check is
    written for just this situation: called in the same environment, it
    reports [requests] as missing and returns [False]. *)
Theorem verification_stops_at_import_without_requests :
  let p := run_process (Verify.script env_requests_missing) repo_world in
  let c := Verify.check_required_packages env_requests_missing repo_world in
  fst p = 1%Z
  ∧ stdout (snd p) = [traceback]
  ∧ launched (snd p) = []
  ∧ fst c = Ret false
  ∧ "❌ requests - Missing" ∈ stdout (snd c).
Proof.
  cbn zeta. split; [reflexivity|]. split; [reflexivity|]. split; [reflexivity|].
  split; [reflexivity|]. apply (bool_decide_unpack _). vm_compute. exact I.
Qed.


Example ready_machine_passes :
  let p := run_process (Verify.script env_ready) repo_world in
  fst p = 0%Z ∧ Verify.passed_line 8 8 ∈ stdout (snd p).
Proof. split; [reflexivity|]. apply (bool_decide_unpack _). vm_compute. exact I. Qed.

Example missing_package_costs_one_check :
  let p := run_process (Verify.script env_safety_missing) repo_world in
  fst p = 1%Z ∧ Verify.passed_line 7 8 ∈ stdout (snd p).
Proof. split; [reflexivity|]. apply (bool_decide_unpack _). vm_compute. exact I. Qed.

(** * Further properties *)

(** ** Checks that touch nothing but the console *)

Section ConsoleOnly.
Context {A B : Type}.

Lemma console_only_ret (a : A) : console_only (mret a).
Proof. intros w. done. Qed.

Lemma console_only_raise (e : exn) : console_only (raise (A := A) e).
Proof. intros w. done. Qed.

Lemma console_only_bind (m : M A) (f : A → M B) :
  console_only m → (∀ a, console_only (f a)) → console_only (m ≫= f).
Proof.
  intros Hm Hf w. specialize (Hm w). unfold mbind, M_bind.
  destruct (m w) as [[a|e] w1]; cbn [snd] in *; [|exact Hm].
  destruct (Hf a w1) as (H1 & H2 & H3). by rewrite H1, H2, H3.
Qed.

Lemma console_only_try (m : M A) (h : exn → option (M A)) :
  console_only m →
  (∀ e k, h e = Some k → console_only k) →
  console_only (try_except m h).
Proof.
  intros Hm Hh w. specialize (Hm w). unfold try_except.
  destruct (m w) as [[a|e] w1]; cbn [snd] in *; [exact Hm|].
  destruct (h e) as [k|] eqn:Hk; [|exact Hm].
  destruct (Hh e k Hk w1) as (H1 & H2 & H3). by rewrite H1, H2, H3.
Qed.
End ConsoleOnly.

Lemma console_only_print s : console_only (print s).
Proof. intros w. done. Qed.

Lemma console_only_path_exists p : console_only (path_exists p).
Proof. intros w. done. Qed.

Lemma console_only_for_fold {A S} (l : list A) (body : A → S → M S) (s : S) :
  (∀ x s, console_only (body x s)) → console_only (for_fold l body s).
Proof.
  intros Hbody. revert s.
  induction l as [|x l IH]; intros s; cbn [for_fold].
  - apply console_only_ret.
  - apply console_only_bind; auto.
Qed.

(** One syntax-directed step of a [console_only] proof. *)
Ltac console_only_step :=
  cbn beta zeta;
  lazymatch goal with
  | |- console_only (mret _) => apply console_only_ret
  | |- console_only (raise _) => apply console_only_raise
  | |- console_only (print _) => apply console_only_print
  | |- console_only (path_exists _) => apply console_only_path_exists
  | |- console_only (_ ≫= _) => apply console_only_bind; [| intros ?]
  | |- console_only (for_fold _ _ _) => apply console_only_for_fold; intros ? ?
  | |- console_only (try_except _ _) =>
      apply console_only_try;
      [| let e := fresh "e" in
         let k := fresh "k" in
         let H := fresh "H" in
         intros e k H; destruct e; cbn beta iota in H;
         repeat match type of H with
                | (if ?c then _ else _) = _ => destruct c
                end;
         try discriminate H; injection H as <-]
  | |- console_only (if ?b then _ else _) => destruct b
  | |- console_only (match ?x with _ => _ end) => destruct x
  end.

Ltac console_only := repeat console_only_step.

Section QuietChecks.
Import Verify.
Variable E : env.

Lemma check_python_version_console_only : console_only (check_python_version E).
Proof. unfold check_python_version. console_only. Qed.

Lemma check_required_packages_console_only : console_only (check_required_packages E).
Proof. unfold check_required_packages, importlib_import_module. console_only. Qed.

Lemma check_internet_connectivity_console_only :
  console_only (check_internet_connectivity E).
Proof. unfold check_internet_connectivity. console_only. Qed.

Lemma check_test_files_exist_console_only : console_only (check_test_files_exist E).
Proof. unfold check_test_files_exist. console_only. Qed.

Lemma run_syntax_check_console_only : console_only (run_syntax_check E).
Proof. unfold run_syntax_check, open_and_compile. console_only. Qed.
End QuietChecks.

(** ** The verdict of each check *)

Section Verdicts.
Import Verify.
Variable E : env.

Lemma python_verdict w : fst (check_python_version E w) = Ret (python_ok E).
Proof.
  unfold check_python_version, python_ok. unfold_monad.
  by destruct (_ && _).
Qed.

Lemma internet_verdict w :
  fst (check_internet_connectivity E w) = Ret true ↔ internet_ok E = true.
Proof.
  unfold check_internet_connectivity, internet_ok. unfold_monad.
  destruct (requests_get E probe_url 10) as [status_code|e]; cbn.
  - destruct (status_code =? 200)%Z; cbn; split; congruence.
  - destruct (isinstance e RequestException); cbn; split; congruence.
Qed.

(** The loop over the four test files, from any value of [all_exist]. *)
Lemma files_verdict w :
  fst (check_test_files_exist E w) = Ret (files_ok E (fs w)).
Proof.
  unfold check_test_files_exist, files_ok.
  match goal with |- context [for_fold test_files ?body true] => set (step := body) end.
  unfold mbind at 1, M_bind at 1. cbn [print].
  set (w0 := World _ _ _ _). change (fs w) with (fs w0). clearbody w0.
  change (forallb ?f test_files) with (true && forallb f test_files).
  generalize true as all_exist. generalize test_files as l.
  intros l. revert w0. induction l as [|f l IH]; intros w0 all_exist.
  - cbn. by rewrite andb_true_r.
  - cbn [for_fold forallb]. unfold mbind at 1, M_bind at 1.
    assert (Hs : step f all_exist w0 =
                 (Ret (all_exist && bool_decide (path_join (base_path E) f ∈ fs w0)),
                  World (fs w0)
                    (stdout w0 ++ [if bool_decide (path_join (base_path E) f ∈ fs w0)
                                   then "✅ " +:+ f +:+ " - Exists"
                                   else "❌ " +:+ f +:+ " - Missing"])
                    (clock w0) (launched w0))).
    { subst step. unfold_monad. cbn beta.
      destruct (bool_decide _); cbn; by rewrite ?andb_true_r, ?andb_false_r. }
    rewrite Hs. rewrite IH. cbn [fs]. by rewrite andb_assoc.
Qed.

Lemma collect_verdict w :
  fst (run_quick_test E w) = Ret (child_ok E (collect_command E) 30).
Proof.
  unfold run_quick_test, child_ok, subprocess_run. unfold_monad.
  destruct (child E (collect_command E)) as [after rc out err| |e]; cbn.
  - destruct (after <=? seconds 30)%N; cbn; [by destruct (rc =? 0)%Z | done].
  - done.
  - by destruct (isinstance e TimeoutExpired).
Qed.

Lemma sample_verdict w :
  fst (run_sample_backend_test E w) = Ret (child_ok E (sample_command E) 60).
Proof.
  unfold run_sample_backend_test, child_ok, subprocess_run. unfold_monad.
  destruct (child E (sample_command E)) as [after rc out err| |e]; cbn.
  - destruct (after <=? seconds 60)%N; cbn; [by destruct (rc =? 0)%Z | done].
  - done.
  - by destruct (isinstance e TimeoutExpired).
Qed.

Lemma collect_frame w :
  fs (snd (run_quick_test E w)) = files_left E (collect_command E) (fs w)
  ∧ launched (snd (run_quick_test E w)) = launched w ++ [collect_command E].
Proof.
  unfold run_quick_test, subprocess_run, files_left. unfold_monad.
  destruct (child E (collect_command E)) as [after rc out err| |e]; cbn.
  - destruct (after <=? seconds 30)%N; cbn; [by destruct (rc =? 0)%Z | done].
  - done.
  - by destruct (isinstance e TimeoutExpired).
Qed.

Lemma sample_frame w :
  fs (snd (run_sample_backend_test E w)) = files_left E (sample_command E) (fs w)
  ∧ launched (snd (run_sample_backend_test E w)) = launched w ++ [sample_command E].
Proof.
  unfold run_sample_backend_test, subprocess_run, files_left. unfold_monad.
  destruct (child E (sample_command E)) as [after rc out err| |e]; cbn.
  - destruct (after <=? seconds 60)%N; cbn; [by destruct (rc =? 0)%Z | done].
  - done.
  - by destruct (isinstance e TimeoutExpired).
Qed.
End Verdicts.

Section Loops.
Import Verify.
Variable E : env.

Lemma filter_failing_nil l :
  filter (λ package, succeeds (probe E package) = false) l = []
  ↔ forallb (λ package, succeeds (probe E package)) l = true.
Proof.
  induction l as [|p l IH]; [done|].
  rewrite filter_cons. cbn [forallb].
  destruct (succeeds (probe E p)) eqn:Hp.
  - rewrite decide_False by done. by rewrite IH.
  - rewrite decide_True by done. done.
Qed.

(** The probing loop of [check_required_packages]. *)
Lemma probe_loop w :
  match first_unhandled (λ e, isinstance e ImportError) (probe E) required_packages with
  | Some e => fst (check_required_packages E w) = Raise (Exception e)
  | None =>
      fst (check_required_packages E w) = Ret (packages_ok E)
      ∧ stdout (snd (check_required_packages E w)) =
          stdout w
          ++ (LF +:+ "📦 Checking required packages...")
             :: map (probe_line E) required_packages
          ++ match missing_packages E with
             | [] => []
             | _ :: _ =>
                 [LF +:+ "⚠️  Missing packages: " +:+ join ", " (missing_packages E);
                  "Install with: pip install " +:+ join " " (missing_packages E)]
             end
  end.
Proof.
  unfold check_required_packages, packages_ok, missing_packages.
  match goal with |- context [for_fold required_packages ?body []] => set (step := body) end.
  set (w0 := World (fs w) (stdout w ++ [LF +:+ "📦 Checking required packages..."])
                   (clock w) (launched w)).
  assert (Hstep : ∀ p m w1,
            step p m w1 =
            match probe E p with
            | None => (Ret m, World (fs w1) (stdout w1 ++ [probe_line E p])
                                    (clock w1) (launched w1))
            | Some e =>
                if isinstance e ImportError
                then (Ret (m ++ [p]), World (fs w1) (stdout w1 ++ [probe_line E p])
                                            (clock w1) (launched w1))
                else (Raise (Exception e), w1)
            end).
  { intros p m w1. subst step. cbn beta. unfold probe_line, probe, importlib_import_module.
    destruct (String.eqb p "factory_boy");
      (destruct (import_module E _) as [e|]; unfold_monad; cbn;
       [by destruct (isinstance e ImportError) | done]). }
  assert (Hloop : ∀ l m w1,
            match first_unhandled (λ e, isinstance e ImportError) (probe E) l with
            | Some e => fst (for_fold l step m w1) = Raise (Exception e)
            | None =>
                for_fold l step m w1 =
                (Ret (m ++ filter (λ package, succeeds (probe E package) = false) l),
                 World (fs w1) (stdout w1 ++ map (probe_line E) l) (clock w1) (launched w1))
            end).
  { induction l as [|p l IH]; intros m w1.
    - cbn. rewrite !app_nil_r. by destruct w1.
    - cbn [first_unhandled map].
      change (for_fold (p :: l) step m w1)
        with (match step p m w1 with
              | (Ret s', w') => for_fold l step s' w'
              | (Raise e, w') => (Raise e, w')
              end).
      rewrite Hstep, filter_cons.
      destruct (probe E p) as [e|] eqn:Hp; cbn [succeeds].
      + destruct (isinstance e ImportError); [|done].
        rewrite decide_True by done.
        specialize (IH (m ++ [p]) (World (fs w1) (stdout w1 ++ [probe_line E p])
                                         (clock w1) (launched w1))).
        destruct (first_unhandled _ _ l); [exact IH|].
        rewrite IH. cbn [fs stdout clock launched]. by rewrite <- !app_assoc.
      + rewrite decide_False by done.
        specialize (IH m (World (fs w1) (stdout w1 ++ [probe_line E p])
                                (clock w1) (launched w1))).
        destruct (first_unhandled _ _ l); [exact IH|].
        rewrite IH. cbn [fs stdout clock launched]. by rewrite <- !app_assoc. }
  specialize (Hloop required_packages [] w0).
  unfold mbind, M_bind, print. fold w0.
  destruct (first_unhandled _ _ required_packages).
  - destruct (for_fold required_packages step [] w0) as [r w1]. cbn [fst] in Hloop.
    by subst r.
  - rewrite Hloop. cbn [app].
    destruct (filter _ required_packages) as [|p missing] eqn:Hmissing.
    + apply filter_failing_nil in Hmissing. rewrite Hmissing. unfold mret, M_ret.
      cbn [fst snd stdout]. split; [done|]. subst w0. cbn [stdout].
      by rewrite app_nil_r, <- app_assoc.
    + assert (forallb (λ package, succeeds (probe E package)) required_packages = false) as ->.
      { apply not_true_is_false. rewrite <- filter_failing_nil. by rewrite Hmissing. }
      unfold mret, M_ret. cbn [fst snd stdout]. split; [done|]. subst w0. cbn [stdout].
      by rewrite <- !app_assoc.
Qed.
End Loops.

Section Syntax.
Import Verify.
Variable E : env.

Lemma syntax_ok_forallb files l :
  forallb (λ f, bool_decide (path_join (cwd E) f ∈ files)
                && succeeds (compile_source E f)) l
  = forallb (λ f, succeeds (compile_outcome E files f)) l.
Proof.
  induction l as [|f l IH]; [done|]. cbn [forallb]. rewrite IH. f_equal.
  unfold compile_outcome. by destruct (bool_decide _).
Qed.

(** The loop of [run_syntax_check]. *)
Lemma syntax_loop w :
  match first_unhandled syntax_handled (compile_outcome E (fs w)) test_files with
  | Some e => fst (run_syntax_check E w) = Raise (Exception e)
  | None =>
      fst (run_syntax_check E w) = Ret (syntax_ok E (fs w))
      ∧ stdout (snd (run_syntax_check E w)) =
          stdout w ++ (LF +:+ "🔍 Checking Python syntax...")
                      :: map (syntax_line E (fs w)) test_files
  end.
Proof.
  unfold run_syntax_check, syntax_ok. rewrite syntax_ok_forallb.
  match goal with |- context [for_fold test_files ?body true] => set (step := body) end.
  set (w0 := World (fs w) (stdout w ++ [LF +:+ "🔍 Checking Python syntax..."])
                   (clock w) (launched w)).
  assert (Hstep : ∀ f b w1,
            fs w1 = fs w →
            step f b w1 =
            match compile_outcome E (fs w) f with
            | None => (Ret b, World (fs w1) (stdout w1 ++ [syntax_line E (fs w) f])
                                    (clock w1) (launched w1))
            | Some e =>
                if syntax_handled e
                then (Ret false, World (fs w1) (stdout w1 ++ [syntax_line E (fs w) f])
                                       (clock w1) (launched w1))
                else (Raise (Exception e), w1)
            end).
  { intros f b w1 Hfs. subst step. cbn beta.
    unfold syntax_line, compile_outcome, syntax_handled, open_and_compile.
    unfold_monad. rewrite Hfs.
    destruct (bool_decide _); cbn.
    - destruct (compile_source E f) as [e|]; cbn; [|by rewrite Hfs].
      destruct (isinstance e SyntaxError); cbn; [by rewrite Hfs|].
      destruct (isinstance e FileNotFoundError); by rewrite ?Hfs.
    - by rewrite Hfs. }
  assert (Hloop : ∀ l b w1,
            fs w1 = fs w →
            match first_unhandled syntax_handled (compile_outcome E (fs w)) l with
            | Some e => fst (for_fold l step b w1) = Raise (Exception e)
            | None =>
                for_fold l step b w1 =
                (Ret (b && forallb (λ f, succeeds (compile_outcome E (fs w) f)) l),
                 World (fs w1) (stdout w1 ++ map (syntax_line E (fs w)) l)
                       (clock w1) (launched w1))
            end).
  { induction l as [|f l IH]; intros b w1 Hfs.
    - cbn. rewrite app_nil_r, andb_true_r. by destruct w1.
    - cbn [first_unhandled map forallb].
      change (for_fold (f :: l) step b w1)
        with (match step f b w1 with
              | (Ret s', w') => for_fold l step s' w'
              | (Raise e, w') => (Raise e, w')
              end).
      rewrite (Hstep _ _ _ Hfs).
      destruct (compile_outcome E (fs w) f) as [e|] eqn:Hf; cbn [succeeds].
      + destruct (syntax_handled e); [|done].
        specialize (IH false (World (fs w1) (stdout w1 ++ [syntax_line E (fs w) f])
                                    (clock w1) (launched w1)) Hfs).
        destruct (first_unhandled _ _ l); [exact IH|].
        rewrite IH. cbn [fs stdout clock launched].
        by rewrite <- !app_assoc, andb_false_r.
      + specialize (IH b (World (fs w1) (stdout w1 ++ [syntax_line E (fs w) f])
                                (clock w1) (launched w1)) Hfs).
        destruct (first_unhandled _ _ l); [exact IH|].
        rewrite IH. cbn [fs stdout clock launched]. by rewrite <- !app_assoc. }
  specialize (Hloop test_files true w0 eq_refl).
  unfold mbind, M_bind, print. fold w0.
  destruct (first_unhandled _ _ test_files).
  - exact Hloop.
  - rewrite Hloop. cbn [fst snd stdout andb]. split; [done|].
    subst w0. cbn [stdout]. by rewrite <- app_assoc.
Qed.

Lemma unhandled_not_ok handled outcome l e :
  first_unhandled handled outcome l = Some e →
  forallb (λ x, succeeds (outcome x)) l = false.
Proof.
  induction l as [|x l IH]; [done|]. cbn.
  destruct (outcome x) as [e'|]; cbn; [done|]. exact IH.
Qed.

Lemma syntax_verdict w :
  fst (run_syntax_check E w) = Ret true ↔ syntax_ok E (fs w) = true.
Proof.
  pose proof (syntax_loop w) as H.
  destruct (first_unhandled _ _ test_files) as [e|] eqn:Hu.
  - rewrite H. unfold syntax_ok. rewrite syntax_ok_forallb.
    rewrite (unhandled_not_ok _ _ _ _ Hu). split; congruence.
  - destruct H as [-> _]. split; congruence.
Qed.

Lemma packages_verdict w :
  fst (check_required_packages E w) = Ret true ↔ packages_ok E = true.
Proof.
  pose proof (probe_loop E w) as H.
  destruct (first_unhandled _ _ required_packages) as [e|] eqn:Hu.
  - rewrite H. unfold packages_ok.
    rewrite (unhandled_not_ok _ _ _ _ Hu). split; congruence.
  - destruct H as [-> _]. split; congruence.
Qed.
End Syntax.

Section DatabaseVerdict.
Import Verify.
Variable E : env.

Lemma steps_ok_all :
  forallb (λ s, succeeds (sqlite_fails E s)) all_steps = true →
  ∀ s, sqlite_fails E s = None.
Proof.
  cbn. rewrite !andb_true_iff. intros (H1 & H2 & H3 & H4 & H5 & H6 & H7 & H8 & _) s.
  destruct s; [destruct (sqlite_fails E Connect)| destruct (sqlite_fails E Cursor)
    | destruct (sqlite_fails E CreateTable) | destruct (sqlite_fails E InsertRow)
    | destruct (sqlite_fails E SelectRow) | destruct (sqlite_fails E FetchOne)
    | destruct (sqlite_fails E Commit) | destruct (sqlite_fails E Close)]; done.
Qed.

(** The smoke test always returns its verdict, starts no process, and
    changes the file system by its temporary file at most. *)
Lemma database_check_effect w :
  fst (check_database_functionality E w) = Ret (database_ok E)
  ∧ launched (snd (check_database_functionality E w)) = launched w
  ∧ fs (snd (check_database_functionality E w)) =
      match mkstemp E ".db" with
      | inl name =>
          if forallb (λ s, succeeds (sqlite_fails E s)) all_steps
          then (fs w ∪ {[name]}) ∖ {[name]}
          else fs w ∪ {[name]}
      | inr _ => fs w
      end.
Proof.
  unfold database_ok.
  destruct (mkstemp E ".db") as [name|e0] eqn:Hname.
  - destruct (forallb _ all_steps) eqn:Hsteps.
    + pose proof (steps_ok_all Hsteps) as Hok.
      unfold check_database_functionality, named_temporary_file, sqlite, unlink.
      rewrite Hname, !Hok. unfold_monad. cbn [fs stdout clock launched].
      rewrite bool_decide_eq_true_2 by set_solver.
      destruct (fetched E) as [r|]; [destruct (String.eqb (row_name r) "Test User")|];
        done.
    + unfold check_database_functionality, named_temporary_file, sqlite.
      rewrite Hname. unfold_monad. cbn [fs stdout clock launched].
      cbn in Hsteps.
      destruct (sqlite_fails E Connect); [done|].
      destruct (sqlite_fails E Cursor); [done|].
      destruct (sqlite_fails E CreateTable); [done|].
      destruct (sqlite_fails E InsertRow); [done|].
      destruct (sqlite_fails E SelectRow); [done|].
      destruct (sqlite_fails E FetchOne); [done|].
      destruct (sqlite_fails E Commit); [done|].
      destruct (sqlite_fails E Close); [done|].
      discriminate Hsteps.
  - unfold check_database_functionality, named_temporary_file.
    rewrite Hname. unfold_monad. done.
Qed.
End DatabaseVerdict.

(** ** The whole sequence *)

Lemma check_trace_cons_inv name check cs w bs w' :
  check_trace ((name, check) :: cs) w bs w' →
  ∃ b bs' w1,
    bs = b :: bs'
    ∧ (b = true ↔ fst (check w) = Ret true)
    ∧ fs w1 = fs (snd (check w))
    ∧ launched w1 = launched (snd (check w))
    ∧ check_trace cs w1 bs' w'.
Proof.
  inversion 1 as [|? ? ? ? b w1 bs' ? Hc Htr|? ? ? ? e w1 bs' ? Hc Htr]; subst.
  - exists b, bs', w1. rewrite Hc. cbn [fst snd].
    repeat split; [congruence | congruence | exact Htr].
  - exists false, bs', (snd (print (Verify.unexpected name e) w1)).
    rewrite Hc. cbn [fst snd]. repeat split; [done | done | exact Htr].
Qed.

Lemma check_trace_nil_inv w bs w' : check_trace [] w bs w' → bs = [] ∧ w' = w.
Proof. by inversion 1. Qed.

Section Script.
Import Verify.
Variable E : env.

(** The exit status and the final file system in terms of the trace of
    checks. *)
Lemma script_outcome w :
  import_module E "requests" = None →
  ∃ bs w1,
    check_trace (checks E)
      (snd ((print "🔍 Backend Testing Verification" ;; print (str_mul "=" 50)) w)) bs w1
    ∧ fst (run_process (script E) w) = (if forallb id bs then 0 else 1)%Z
    ∧ fs (snd (run_process (script E) w)) = fs w1
    ∧ launched (snd (run_process (script E) w)) = launched w1.
Proof.
  intros Himp.
  destruct (run_checks_trace (checks E) (checks_raise_errors_only E)
              (snd ((print "🔍 Backend Testing Verification" ;; print (str_mul "=" 50)) w)))
    as (bs & w1 & Htr & Hrun).
  pose proof (check_trace_length _ _ _ _ Htr) as Hlen. cbn [checks length] in Hlen.
  exists bs, w1. split; [exact Htr|].
  unfold run_process. rewrite script_eq, Himp. unfold main. unfold_monad.
  unfold_monad. cbn [snd] in Hrun. rewrite Hrun.
  change (length (checks E)) with 8.
  destruct (passed bs =? 8) eqn:Hall; cbn [fst snd fs launched].
  - apply Nat.eqb_eq in Hall. rewrite <- Hlen in Hall. apply passed_all in Hall.
    by rewrite Hall.
  - apply Nat.eqb_neq in Hall. rewrite <- Hlen in Hall.
    destruct (forallb id bs) eqn:Hf; [by apply passed_all in Hf|]. done.
Qed.
End Script.

(** ** The script as a whole *)

Section Anatomy.
Import Verify.
Variable E : env.


Lemma verdict_bool (b ok : bool) (r : result bool) :
  (b = true ↔ r = Ret true) → r = Ret ok → b = ok.
Proof. intros H ->. apply eq_true_iff_eq. rewrite H. split; congruence. Qed.

Lemma verdict_iff (b ok : bool) (r : result bool) :
  (b = true ↔ r = Ret true) → (r = Ret true ↔ ok = true) → b = ok.
Proof. intros H1 H2. apply eq_true_iff_eq. by rewrite H1. Qed.

(** A machine without [requests] is not ready. *)
Lemma packages_need_requests e :
  import_module E "requests" = Some e → packages_ok E = false.
Proof.
  intros H. unfold packages_ok, required_packages. cbn [forallb].
  assert (Hp : probe E "requests" = Some e) by exact H.
  rewrite Hp. cbn [succeeds andb]. apply andb_false_r.
Qed.

(** Exit status, final file system and started processes of the
    script once its imports are done, in terms of the environment. *)
Lemma script_anatomy w :
  import_module E "requests" = None →
  let files := files_after_smoke_test E (fs w) in
  fst (run_process (script E) w) =
    (if python_ok E && packages_ok E && internet_ok E && database_ok E
        && files_ok E files && syntax_ok E files
        && child_ok E (collect_command E) 30
        && child_ok E (sample_command E) 60
     then 0 else 1)%Z
  ∧ fs (snd (run_process (script E) w))
    = files_left E (sample_command E) (files_left E (collect_command E) files)
  ∧ launched (snd (run_process (script E) w))
    = launched w ++ [collect_command E; sample_command E].
Proof.
  intros Himp. cbn zeta.
  destruct (script_outcome E w Himp) as (bs & w8 & Htr & -> & -> & ->).
  unfold checks in Htr.
  set (w0 := snd _) in Htr.
  assert (Hfs0 : fs w0 = fs w) by reflexivity.
  assert (Hl0 : launched w0 = launched w) by reflexivity.
  clearbody w0.
  apply check_trace_cons_inv in Htr as (b1 & bs1 & w1 & -> & Hb1 & Hfs1 & Hl1 & Htr).
  apply check_trace_cons_inv in Htr as (b2 & bs2 & w2 & -> & Hb2 & Hfs2 & Hl2 & Htr).
  apply check_trace_cons_inv in Htr as (b3 & bs3 & w3 & -> & Hb3 & Hfs3 & Hl3 & Htr).
  apply check_trace_cons_inv in Htr as (b4 & bs4 & w4 & -> & Hb4 & Hfs4 & Hl4 & Htr).
  apply check_trace_cons_inv in Htr as (b5 & bs5 & w5 & -> & Hb5 & Hfs5 & Hl5 & Htr).
  apply check_trace_cons_inv in Htr as (b6 & bs6 & w6 & -> & Hb6 & Hfs6 & Hl6 & Htr).
  apply check_trace_cons_inv in Htr as (b7 & bs7 & w7 & -> & Hb7 & Hfs7 & Hl7 & Htr).
  apply check_trace_cons_inv in Htr as (b8 & bs8 & w9 & -> & Hb8 & Hfs8 & Hl8 & Htr).
  apply check_trace_nil_inv in Htr as [-> ->].
  destruct (check_python_version_console_only E w0) as (F1 & _ & L1).
  destruct (check_required_packages_console_only E w1) as (F2 & _ & L2).
  destruct (check_internet_connectivity_console_only E w2) as (F3 & _ & L3).
  destruct (database_check_effect E w3) as (V4 & L4 & F4).
  destruct (check_test_files_exist_console_only E w4) as (F5 & _ & L5).
  destruct (run_syntax_check_console_only E w5) as (F6 & _ & L6).
  destruct (collect_frame E w6) as (F7 & L7).
  destruct (sample_frame E w7) as (F8 & L8).
  assert (Hw3 : fs w3 = fs w) by congruence.
  assert (Hw4 : fs w4 = files_after_smoke_test E (fs w)).
  { rewrite Hfs4, F4, Hw3. unfold files_after_smoke_test.
    destruct (mkstemp E ".db") as [name|]; [|done].
    destruct (forallb _ all_steps); [|done].
    apply set_eq. intros x.
    rewrite !elem_of_difference, elem_of_union, elem_of_singleton. tauto. }
  assert (Hw5 : fs w5 = files_after_smoke_test E (fs w)) by congruence.
  assert (Hw6 : fs w6 = files_after_smoke_test E (fs w)) by congruence.
  rewrite (verdict_bool b1 _ _ Hb1 (python_verdict E w0)).
  rewrite (verdict_iff b2 _ _ Hb2 (packages_verdict E w1)).
  rewrite (verdict_iff b3 _ _ Hb3 (internet_verdict E w2)).
  rewrite (verdict_bool b4 _ _ Hb4 V4).
  rewrite (verdict_bool b5 _ _ Hb5 (files_verdict E w4)), Hw4.
  rewrite (verdict_iff b6 _ _ Hb6 (syntax_verdict E w5)), Hw5.
  rewrite (verdict_bool b7 _ _ Hb7 (collect_verdict E w6)).
  rewrite (verdict_bool b8 _ _ Hb8 (sample_verdict E w7)).
  split; [|split].
  - cbn [forallb id]. by rewrite andb_true_r, !andb_assoc.
  - by rewrite Hfs8, F8, Hfs7, F7, Hw6.
  - rewrite Hl8, L8, Hl7, L7, Hl6, L6, Hl5, L5, Hl4, L4, Hl3, L3, Hl2, L2, Hl1, L1, Hl0.
    by rewrite <- app_assoc.
Qed.

(** X7.  When the temporary file of the smoke test gets a fresh name,
    the verification script exits with status 0 exactly when the
    environment is [ready]: the interpreter is a 3.x with x at least 9,
    the eight packages import, the probe URL answers 200, the smoke
    test runs without error and reads back "Test User", the four test
    files exist below the script's directory and, seen from the working
    directory, exist and compile, and both children end in time with
    return code 0.  Otherwise the status is 1. *)
Theorem verification_succeeds_iff_ready w :
  (∀ name, mkstemp E ".db" = inl name → name ∉ fs w) →
  fst (run_process (script E) w) = (if ready E (fs w) then 0 else 1)%Z.
Proof.
  intros Hfresh. destruct (import_module E "requests") as [e|] eqn:Himp.
  { rewrite (script_without_requests E w e Himp). unfold ready.
    by rewrite (packages_need_requests e Himp), andb_false_r. }
  destruct (script_anatomy w Himp) as (-> & _ & _).
  unfold ready, files_after_smoke_test.
  destruct (database_ok E) eqn:Hdb.
  - unfold database_ok in Hdb.
    destruct (mkstemp E ".db") as [name|]; [|done].
    apply andb_true_iff in Hdb as [-> _].
    replace (fs w ∖ {[name]}) with (fs w); [done|].
    specialize (Hfresh name eq_refl). apply set_eq. intros x.
    rewrite elem_of_difference, elem_of_singleton.
    split; [|tauto]. intros Hx. split; [done|]. by intros ->.
  - by rewrite !andb_false_r.
Qed.

End Anatomy.

Section CheckResults.
Import Verify.
Variable E : env.

(** X1.  [check_required_packages] probes all eight packages in order,
    [factory_boy] under the module name [factory].  If every probe
    either succeeds or raises an [ImportError], the check returns
    [True] exactly when none is missing, prints one line per package
    and, when some are missing, names them, in order, in the two
    closing lines.  If a probe raises any other error, the first such
    error leaves the check unhandled. *)
Theorem required_packages_check w :
  match first_unhandled (λ e, isinstance e ImportError) (probe E) required_packages with
  | Some e => fst (check_required_packages E w) = Raise (Exception e)
  | None =>
      fst (check_required_packages E w) = Ret (bool_decide (missing_packages E = []))
      ∧ new_output w (snd (check_required_packages E w)) =
          (LF +:+ "📦 Checking required packages...")
          :: map (probe_line E) required_packages
          ++ match missing_packages E with
             | [] => []
             | _ :: _ =>
                 [LF +:+ "⚠️  Missing packages: " +:+ join ", " (missing_packages E);
                  "Install with: pip install " +:+ join " " (missing_packages E)]
             end
  end.
Proof.
  pose proof (probe_loop E w) as H.
  destruct (first_unhandled _ _ required_packages); [exact H|].
  destruct H as [Hr Hout]. split.
  - rewrite Hr. f_equal. unfold packages_ok, missing_packages.
    apply eq_true_iff_eq. rewrite bool_decide_eq_true. symmetry.
    apply filter_failing_nil.
  - by apply new_output_app.
Qed.

(** X2.  [check_test_files_exist] always returns, with [True] exactly
    when each of the four test files exists below the directory of the
    script, and leaves the file system as it found it. *)
Theorem test_files_check w :
  ∃ b, fst (check_test_files_exist E w) = Ret b
       ∧ (b = true ↔ ∀ f, f ∈ test_files → path_join (base_path E) f ∈ fs w)
       ∧ fs (snd (check_test_files_exist E w)) = fs w.
Proof.
  exists (files_ok E (fs w)). split; [apply files_verdict|]. split.
  - unfold files_ok. rewrite forallb_forall. split.
    + intros H f Hf. apply list_elem_of_In in Hf. apply H in Hf.
      by apply bool_decide_eq_true in Hf.
    + intros H f Hf. apply bool_decide_eq_true. apply H. by apply list_elem_of_In.
  - apply check_test_files_exist_console_only.
Qed.

(** X3.  [run_syntax_check] looks at the four files in order; a file
    that is missing from the working directory or has a syntax error
    makes the verdict [False] without stopping the loop, and the check
    returns [True] exactly when every file is there and compiles.  An
    error of any other kind, from reading or compiling a file, leaves
    the check at that file. *)
Theorem syntax_check w :
  match first_unhandled syntax_handled (compile_outcome E (fs w)) test_files with
  | Some e => fst (run_syntax_check E w) = Raise (Exception e)
  | None =>
      ∃ b, fst (run_syntax_check E w) = Ret b
           ∧ (b = true ↔ ∀ f, f ∈ test_files →
                path_join (cwd E) f ∈ fs w ∧ compile_source E f = None)
           ∧ new_output w (snd (run_syntax_check E w)) =
               (LF +:+ "🔍 Checking Python syntax...")
               :: map (syntax_line E (fs w)) test_files
  end.
Proof.
  pose proof (syntax_loop E w) as H.
  destruct (first_unhandled _ _ test_files); [exact H|].
  destruct H as [Hr Hout]. exists (syntax_ok E (fs w)).
  split; [exact Hr|]. split; [|by apply new_output_app].
  unfold syntax_ok. rewrite forallb_forall. split.
  - intros H f Hf. apply list_elem_of_In in Hf. apply H in Hf.
    apply andb_true_iff in Hf as [H1 H2]. apply bool_decide_eq_true in H1.
    split; [exact H1|]. by destruct (compile_source E f).
  - intros H f Hf. apply list_elem_of_In in Hf. destruct (H f Hf) as [H1 H2].
    rewrite H2. by rewrite bool_decide_eq_true_2.
Qed.

(** X4.  The two file checks resolve the same relative names against
    different directories: when the four files exist below the script's
    directory but one of them is not found from the working directory,
    [check_test_files_exist] passes and [run_syntax_check] does not. *)
Theorem syntax_check_looks_in_working_directory w f :
  (∀ g, g ∈ test_files → path_join (base_path E) g ∈ fs w) →
  f ∈ test_files →
  path_join (cwd E) f ∉ fs w →
  fst (check_test_files_exist E w) = Ret true
  ∧ fst (run_syntax_check E w) ≠ Ret true.
Proof.
  intros Hbase Hf Hmissing. split.
  - rewrite files_verdict. f_equal. unfold files_ok. apply forallb_forall.
    intros g Hg. apply bool_decide_eq_true. apply Hbase. by apply list_elem_of_In.
  - rewrite syntax_verdict. unfold syntax_ok. rewrite forallb_forall.
    intros H. apply list_elem_of_In in Hf. apply H in Hf.
    apply andb_true_iff in Hf as [Hf _]. by apply bool_decide_eq_true in Hf.
Qed.

(** X5.  The two subprocess checks always return a verdict, and it is
    [True] exactly when the child ends within its time limit (30 and 60
    seconds) with return code 0; a child that cannot be started, one
    that exits with another code and one that runs out of time all give
    [False]. *)
Theorem subprocess_checks w :
  (∃ b, fst (run_quick_test E w) = Ret b
        ∧ (b = true ↔ ∃ after out err,
             child E (collect_command E) = Completes after 0 out err
             ∧ (after ≤ seconds 30)%N))
  ∧ (∃ b, fst (run_sample_backend_test E w) = Ret b
          ∧ (b = true ↔ ∃ after out err,
               child E (sample_command E) = Completes after 0 out err
               ∧ (after ≤ seconds 60)%N)).
Proof.
  split.
  - exists (child_ok E (collect_command E) 30). split; [apply collect_verdict|].
    unfold child_ok.
    destruct (child E (collect_command E)) as [after rc out err| |e].
    + rewrite andb_true_iff, N.leb_le, Z.eqb_eq. split.
      * intros [H ->]. eauto.
      * intros (a & o & e & [= -> -> _ _] & H). done.
    + split; [done|]. by intros (a & o & e & [=] & _).
    + split; [done|]. by intros (a & o & e' & [=] & _).
  - exists (child_ok E (sample_command E) 60). split; [apply sample_verdict|].
    unfold child_ok.
    destruct (child E (sample_command E)) as [after rc out err| |e].
    + rewrite andb_true_iff, N.leb_le, Z.eqb_eq. split.
      * intros [H ->]. eauto.
      * intros (a & o & e & [= -> -> _ _] & H). done.
    + split; [done|]. by intros (a & o & e & [=] & _).
    + split; [done|]. by intros (a & o & e' & [=] & _).
Qed.
End CheckResults.


Lemma syntax_check_looks_in_working_directory_witness :
  fst (Verify.check_test_files_exist env_elsewhere repo_world) = Ret true
  ∧ fst (Verify.run_syntax_check env_elsewhere repo_world) ≠ Ret true.
Proof.
  apply (syntax_check_looks_in_working_directory env_elsewhere repo_world
           "backend/blackbox/test_api_simple.py").
  - intros g Hg. apply (bool_decide_unpack _).
    unfold Verify.test_files in Hg.
    rewrite !elem_of_cons, elem_of_nil in Hg.
    destruct Hg as [->|[->|[->|[->|[]]]]]; vm_compute; exact I.
  - unfold Verify.test_files. apply elem_of_cons. by left.
  - apply (bool_decide_unpack _). vm_compute. exact I.
Defined.

Example verification_children_leave_their_cache :
  let p := run_process (Verify.script env_ready) repo_world in
  launched (snd p) = [Verify.collect_command env_ready; Verify.sample_command env_ready]
  ∧ fs (snd p) = fs repo_world ∪ {["/repo/.pytest_cache/CACHEDIR.TAG"]}.
Proof. split; [reflexivity|]. apply (bool_decide_unpack _). vm_compute. exact I. Qed.

Lemma verification_succeeds_iff_ready_witness :
  ready env_ready (fs repo_world) = true
  ∧ fst (run_process (Verify.script env_ready) repo_world) = 0%Z.
Proof.
  assert (Hready : ready env_ready (fs repo_world) = true) by (vm_compute; reflexivity).
  split; [exact Hready|].
  rewrite (verification_succeeds_iff_ready env_ready repo_world).
  - by rewrite Hready.
  - intros name [= <-]. apply (bool_decide_unpack _). vm_compute. exact I.
Defined.

Lemma database_file_removed_without_error_witness :
  fst (Verify.check_database_functionality env_ready repo_world) = Ret true
  ∧ "/tmp/tmpk3v9x1qa.db"
    ∉ fs (snd (Verify.check_database_functionality env_ready repo_world)).
Proof.
  apply (database_file_removed_without_error env_ready repo_world "/tmp/tmpk3v9x1qa.db").
  - reflexivity.
  - intros s. reflexivity.
Defined.

(** ** The runner: files, processes and reports *)

Section Footprint.
Import Runner.
Variable E : env.

Lemma run_command_footprint command description w :
  fs (snd (run_command E command description w)) = files_left (spawn E command) (fs w)
  ∧ launched (snd (run_command E command description w)) = launched w ++ [command].
Proof.
  rewrite run_command_eq. cbn zeta. unfold files_left.
  by destruct (outcome (spawn E command)) as [[rc|l]|].
Qed.

Lemma selected_run_footprint cat w :
  fs (snd (selected_run E cat w))
  = files_after_commands E (attempted E (commands_of cat)) (fs w)
  ∧ launched (snd (selected_run E cat w)) = launched w ++ attempted E (commands_of cat).
Proof.
  assert (Hone : ∀ cmd description,
            fs (snd (run_command E cmd description w))
            = files_after_commands E (attempted E [cmd]) (fs w)
            ∧ launched (snd (run_command E cmd description w))
              = launched w ++ attempted E [cmd]).
  { intros cmd description.
    destruct (run_command_footprint cmd description w) as [-> ->].
    cbn [attempted]. by destruct (outcome (spawn E cmd)) as [[rc|l]|]. }
  destruct cat; cbn [selected_run commands_of].
  - exact (Hone api_command "API Black Box Tests").
  - exact (Hone database_command "Database Tests with Factory Boy").
  - exact (Hone unit_command "Unit Tests with Coverage").
  - exact (Hone integration_command "Integration Tests").
  - cbn [map fst security_commands attempted]. unfold files_after_commands.
    rewrite run_security_scan_eq, (run_command_eq E bandit_command). cbn zeta.
    destruct (outcome (spawn E bandit_command)) as [[rc|l]|] eqn:Hb;
      cbn [snd fs launched foldl].
    2,3: unfold files_left; by rewrite Hb.
    rewrite (run_command_eq E safety_command). cbn zeta.
    destruct (outcome (spawn E safety_command)) as [[rc2|l]|] eqn:Hs;
      cbn [snd fs launched foldl]; unfold files_left; rewrite Hb, Hs;
      (split; [done | by rewrite <- app_assoc]).
  - exact (Hone all_command "All Backend Tests").
Qed.

Lemma main_footprint cat w :
  let w' := snd (run_process (main E (namespace_of cat)) w) in
  fs w' = fs (snd (selected_run E cat (snd (init E w))))
  ∧ launched w' = launched (snd (selected_run E cat (snd (init E w)))).
Proof.
  cbn zeta. unfold run_process. rewrite main_eq.
  destruct (selected_run E cat (snd (init E w))) as [[ok|[ |c|e]] w1]; cbn [snd];
    rewrite ?generate_summary_eq; done.
Qed.

(** X9.  However a run ends (success, failure, launch error or
    interrupt), the runner itself changes the file system by creating
    its reports directory and in no other way: the paths that exist
    afterwards are those the children of the commands it handed to
    [subprocess.run] leave, one after the other, of the initial paths
    and the reports directory.  A command that could not be started
    leaves them as they are; a child that ran, also one cut short by
    the interrupt, creates and deletes what it will. *)
Theorem main_file_footprint cat w :
  fs (snd (run_process (main E (namespace_of cat)) w))
  = files_after_commands E (attempted E (commands_of cat)) (fs w ∪ {[reports_dir E]}).
Proof.
  destruct (main_footprint cat w) as [-> _].
  by destruct (selected_run_footprint cat (snd (init E w))) as [-> _].
Qed.

(** X10.  The runner hands to [subprocess.run] the commands of the
    selected category and no others: the first always, and each further
    one (only the security category has a second) exactly when its
    predecessor ran to an exit code. *)
Theorem main_starts_selected_commands_only cat w :
  launched (snd (run_process (main E (namespace_of cat)) w))
  = launched w ++ attempted E (commands_of cat).
Proof.
  destruct (main_footprint cat w) as [_ ->].
  destruct (selected_run_footprint cat (snd (init E w))) as [_ ->]. done.
Qed.
End Footprint.

Example unit_run_replaces_stale_data :
  let w' := snd (run_process (Runner.main env_unit_run (namespace_of Unit))
                   checkout_world) in
  "/repo/.coverage.old" ∈ fs checkout_world
  ∧ ("/repo/.coverage.old" ∉ fs w')
  ∧ "/repo/.coverage" ∈ fs w'
  ∧ "/repo/reports" ∈ fs w'.
Proof. cbn zeta. repeat split; apply (bool_decide_unpack _); vm_compute; exact I. Qed.

Example missing_tool_leaves_only_reports_directory :
  fs (snd (run_process (Runner.main env_pytest_missing (namespace_of API)) checkout_world))
  = fs checkout_world ∪ {["/repo/reports"]}.
Proof. apply (bool_decide_unpack _). vm_compute. exact I. Qed.

Section Reports.
Import Runner.
Variable E : env.

(** A path below the reports directory, written from the child's
    working directory. *)
Lemma reports_path name :
  path_join (reports_dir E) name = path_join (base_dir E) ("reports/" +:+ name).
Proof. unfold reports_dir, path_join. by rewrite !append_assoc. Qed.

(** A single-command run that exits: what is printed and what exists
    afterwards. *)
Lemma completed_run cat cmd w rc :
  commands_of cat = [cmd] →
  outcome (spawn E cmd) = Finished (Exited rc) →
  let w' := snd (run_process (main E (namespace_of cat)) w) in
  fs w' = files_after (spawn E cmd) (fs w ∪ {[reports_dir E]})
  ∧ ∃ run_out, new_output w w' = run_out ++ summary_output E (fs w').
Proof.
  intros Hcmd Hrun. cbn zeta.
  assert (Hsel : ∃ description,
            selected_run E cat (snd (init E w))
            = run_command E cmd description (snd (init E w))).
  { destruct cat; cbn in Hcmd; try discriminate Hcmd;
      injection Hcmd as <-; eexists; reflexivity. }
  destruct Hsel as [description Hsel].
  rewrite run_command_eq in Hsel. cbn zeta in Hsel. rewrite Hrun in Hsel.
  rewrite (process_when_run_returns E cat w _ _ Hsel), generate_summary_eq.
  cbn [snd fs stdout init mkdir_exist_ok]. split; [done|].
  exists (announcement description
          ++ [(if (rc =? 0)%Z then "✅ Completed in " else "❌ Failed in ")
              +:+ fmt_2f (clock w + elapsed (spawn E cmd) - clock w) +:+ "s"]).
  apply new_output_app. by rewrite <- !app_assoc.
Qed.

Lemma entry_line_in_summary files entry :
  entry ∈ reports → entry_line E files entry ∈ summary_output E files.
Proof.
  intros H. unfold summary_output.
  apply elem_of_app. right. apply elem_of_app. left.
  by apply list_elem_of_fmap_2.
Qed.

(** X11.  For each category made of one pytest command: the [--html]
    target of the command is one of the five entries of the summary, and
    when the child runs to an exit code and writes the artifacts its
    command line names, the summary of that run lists this entry as
    present. *)
Theorem completed_run_report_is_listed cat cmd w rc :
  commands_of cat = [cmd] →
  outcome (spawn E cmd) = Finished (Exited rc) →
  (∀ p, p ∈ declared_artifacts cmd → path_join (base_dir E) p ∈ written (spawn E cmd)) →
  ∃ entry,
    entry ∈ reports
    ∧ "reports/" +:+ fst entry ∈ declared_artifacts cmd
    ∧ report_line true (snd entry) (path_join (reports_dir E) (fst entry))
      ∈ new_output w (snd (run_process (main E (namespace_of cat)) w)).
Proof.
  intros Hcmd Hrun Hwritten.
  destruct (completed_run cat cmd w rc Hcmd Hrun) as (Hfs & run_out & Hout).
  assert (Hentry : ∃ entry, entry ∈ reports
                            ∧ "reports/" +:+ fst entry ∈ declared_artifacts cmd).
  { destruct cat; cbn in Hcmd; try discriminate Hcmd; injection Hcmd as <-.
    - exists ("api-tests.html", "API Tests"). split; apply (bool_decide_unpack _); by vm_compute.
    - exists ("database-tests.html", "Database Tests").
      split; apply (bool_decide_unpack _); by vm_compute.
    - exists ("unit-tests.html", "Unit Tests").
      split; apply (bool_decide_unpack _); by vm_compute.
    - exists ("integration-tests.html", "Integration Tests").
      split; apply (bool_decide_unpack _); by vm_compute.
    - exists ("all-backend-tests.html", "Complete Test Suite").
      split; apply (bool_decide_unpack _); by vm_compute. }
  destruct Hentry as (entry & Hin & Hart).
  exists entry. split; [exact Hin|]. split; [exact Hart|].
  rewrite Hout. apply elem_of_app. right.
  pose proof (entry_line_in_summary
                (fs (snd (run_process (main E (namespace_of cat)) w))) entry Hin) as Hline.
  unfold entry_line in Hline. cbn zeta in Hline.
  rewrite bool_decide_eq_true_2 in Hline; [exact Hline|].
  rewrite Hfs, reports_path. unfold files_after.
  apply elem_of_union_r, elem_of_list_to_set. by apply Hwritten.
Qed.

(** X12.  After an [--all] run whose child ran to an exit code and
    wrote the artifacts its command line names, the summary contains
    the coverage line. *)
Theorem all_run_coverage_in_summary w rc :
  outcome (spawn E all_command) = Finished (Exited rc) →
  (∀ p, p ∈ declared_artifacts all_command →
        path_join (base_dir E) p ∈ written (spawn E all_command)) →
  coverage_line E ∈ new_output w (snd (run_process (main E (namespace_of All)) w)).
Proof.
  intros Hrun Hwritten.
  destruct (completed_run All all_command w rc eq_refl Hrun) as (Hfs & run_out & Hout).
  rewrite Hout. apply elem_of_app. right.
  apply coverage_line_only_for_coverage_path.
  rewrite Hfs, coverage_path_eq. unfold files_after.
  apply elem_of_union_r, elem_of_list_to_set.
  replace (base_dir E +:+ "/reports/full-coverage/index.html")
    with (path_join (base_dir E) "reports/full-coverage/index.html") by reflexivity.
  apply Hwritten. apply (bool_decide_unpack _). by vm_compute.
Qed.
End Reports.

Lemma completed_run_report_is_listed_witness :
  "  ✅ Integration Tests: /repo/reports/integration-tests.html"
  ∈ new_output empty_world
      (snd (run_process (Runner.main env_all_pass (namespace_of Integration)) empty_world)).
Proof.
  destruct (completed_run_report_is_listed env_all_pass Integration
              Runner.integration_command empty_world 0 eq_refl eq_refl)
    as (entry & Hin & Hart & Hline).
  - intros p Hp. by apply list_elem_of_fmap_2.
  - apply (bool_decide_unpack _). by vm_compute.
Defined.

Lemma all_run_coverage_in_summary_witness :
  Runner.coverage_line env_all_pass
  ∈ new_output empty_world
      (snd (run_process (Runner.main env_all_pass (namespace_of All)) empty_world)).
Proof.
  apply (all_run_coverage_in_summary env_all_pass empty_world 0 eq_refl).
  intros p Hp. by apply list_elem_of_fmap_2.
Defined.

(** ** The services under test *)

Section UserServiceProperties.
Import UserService.
Context {J : Type}.

(** Neither [get_user] nor [create_user] changes the address of the
    API or drops an entry of the cache. *)
Lemma get_user_keeps (E : env J) self user_id other user_data :
  cache J self !! user_id = Some user_data →
  api_url J (snd (get_user J E self other)) = api_url J self
  ∧ cache J (snd (get_user J E self other)) !! user_id = Some user_data.
Proof.
  intros Hc. unfold get_user.
  destruct (cache J self !! other) as [d|] eqn:Ho; [done|].
  assert (Hne : other ≠ user_id) by (intros ->; congruence).
  destruct (requests_get J E _) as [r|e]; [|done].
  destruct (status_code J r =? 200)%Z; [|done].
  destruct (json J r) as [d|e]; [|done].
  cbn [snd api_url cache]. split; [done|]. by rewrite lookup_insert_ne.
Qed.

Lemma create_user_keeps (E : env J) self data :
  api_url J (snd (create_user J E self data)) = api_url J self
  ∧ cache J (snd (create_user J E self data)) = cache J self.
Proof.
  unfold create_user.
  destruct (negb _ || negb _); [done|].
  destruct (requests_post J E _ _) as [r|e]; [|done].
  destruct (status_code J r =? 201)%Z; [|done]. by destruct (json J r).
Qed.

Lemma after_calls_keep calls : ∀ self user_id user_data,
  cache J self !! user_id = Some user_data →
  api_url J (after_calls self calls) = api_url J self
  ∧ cache J (after_calls self calls) !! user_id = Some user_data.
Proof.
  unfold after_calls.
  induction calls as [|c calls IH]; intros self user_id user_data Hc; [done|].
  cbn [foldl].
  assert (Hstep : api_url J (after_call self c) = api_url J self
                  ∧ cache J (after_call self c) !! user_id = Some user_data).
  { destruct c as [E other|E data]; cbn [after_call].
    - by apply get_user_keeps.
    - destruct (create_user_keeps E self data) as [-> ->]. done. }
  destruct Hstep as [Hurl Hc1].
  destruct (IH _ _ _ Hc1) as [-> ->]. done.
Qed.

(** X13.  Once [get_user] has returned a user, every later call for the
    same id returns the same data and leaves the service as it is, with
    no request sent, whatever the API would answer now and whatever
    calls of [get_user] (for any id) and [create_user] were made in
    between, with whatever outcome, as long as [clear_cache] was not
    called.  After [clear_cache] the next call for the id does send its
    request again. *)
Theorem cached_user_is_served_without_request
    (E E' : env J) self user_id user_data self1 calls :
  get_user J E self user_id = (Ret (Some user_data), self1) →
  let self2 := after_calls self1 calls in
  get_user J E' self2 user_id = (Ret (Some user_data), self2)
  ∧ sent J (snd (get_user J E' (clear_cache J self2) user_id))
    = sent J self2 ++ [api_url J self +:+ "/users/" +:+ pretty user_id].
Proof.
  intros Hfirst. cbn zeta.
  assert (H1 : api_url J self1 = api_url J self
               ∧ cache J self1 !! user_id = Some user_data).
  { revert Hfirst. unfold get_user.
    destruct (cache J self !! user_id) as [d|] eqn:Hc.
    - intros [= <- <-]. done.
    - destruct (requests_get J E _) as [r|e]; [|done].
      destruct (status_code J r =? 200)%Z; [|done].
      destruct (json J r) as [d|e]; [|done].
      intros [= <- <-]. cbn [api_url cache]. by rewrite lookup_insert_eq. }
  destruct H1 as [Hurl1 Hc1].
  destruct (after_calls_keep calls self1 user_id user_data Hc1) as [Hurl2 Hc2].
  split.
  - unfold get_user. by rewrite Hc2.
  - unfold get_user, clear_cache. cbn [cache api_url sent].
    rewrite lookup_empty, Hurl2, Hurl1.
    destruct (requests_get J E' _) as [r|e]; [|done].
    destruct (status_code J r =? 200)%Z; [|done].
    by destruct (json J r).
Qed.
(** X14.  One call of [get_user] sends no request on a cache hit and
    exactly one, to [<api_url>/users/<id>], on a miss; it adds the
    returned user under its id when it returns one and leaves the cache
    untouched otherwise (a response other than 200, a body that does
    not decode, a failed request), so that a miss is asked again next
    time. *)
Theorem get_user_effect (E : env J) self user_id :
  let r := get_user J E self user_id in
  api_url J (snd r) = api_url J self
  ∧ cache J (snd r) = match fst r with
                      | Ret (Some user_data) => <[user_id := user_data]> (cache J self)
                      | _ => cache J self
                      end
  ∧ sent J (snd r) = sent J self
                     ++ match cache J self !! user_id with
                        | Some _ => []
                        | None => [api_url J self +:+ "/users/" +:+ pretty user_id]
                        end.
Proof.
  cbn zeta. unfold get_user. destruct (cache J self !! user_id) as [d|] eqn:Hc.
  - cbn [fst snd]. rewrite app_nil_r. repeat split. symmetry. by apply insert_id.
  - destruct (requests_get J E _) as [r|e]; [|done].
    destruct (status_code J r =? 200)%Z; [|done].
    by destruct (json J r) as [d|e].
Qed.

(** X15.  [create_user] never touches the cache.  With a missing or
    empty name or email it raises [ValueError] and sends nothing; it
    returns only when both are present and the one POST to
    [<api_url>/users] was answered with status 201, and then it returns
    the decoded body. *)
Theorem create_user_outcomes (E : env J) self user_data :
  let r := create_user J E self user_data in
  let url := api_url J self +:+ "/users" in
  cache J (snd r) = cache J self
  ∧ (truthy (dict_get user_data "name") = false
     ∨ truthy (dict_get user_data "email") = false →
     r = (Raise (Exception (Error ValueError "Name and email are required")), self))
  ∧ (∀ created, fst r = Ret created →
       truthy (dict_get user_data "name") = true
       ∧ truthy (dict_get user_data "email") = true
       ∧ sent J (snd r) = sent J self ++ [url]
       ∧ ∃ response, requests_post J E url user_data = inl response
                     ∧ status_code J response = 201%Z
                     ∧ json J response = inl created).
Proof.
  cbn zeta. unfold create_user.
  destruct (truthy (dict_get user_data "name")) eqn:Hn;
    destruct (truthy (dict_get user_data "email")) eqn:He; cbn [negb orb].
  2-4: (split; [done|]; split; [done|]; intros created [=]).
  split; [|split].
  - destruct (requests_post J E _ _) as [r|e]; [|done].
    destruct (status_code J r =? 201)%Z; [|done]. by destruct (json J r).
  - intros [[=]|[=]].
  - intros created.
    destruct (requests_post J E _ _) as [r|e]; [|done].
    destruct (status_code J r =? 201)%Z eqn:Hs; [|done].
    destruct (json J r) as [d|e] eqn:Hj; [|done].
    intros [= ->]. cbn [snd sent]. repeat split. exists r.
    apply Z.eqb_eq in Hs. done.
Qed.
End UserServiceProperties.

Section DatabaseServiceProperties.
Import DatabaseService.
Variable E : env.

(** X16.  [cleanup] never raises, whatever [os.unlink] does, and prints
    nothing.  On a service built on a path the caller supplied it does
    nothing at all; otherwise it changes the existence of no path other
    than the service's own database file. *)
Theorem cleanup_is_safe self w :
  fst (cleanup E self w) = Ret tt
  ∧ (temp_file self = None → snd (cleanup E self w) = w)
  ∧ stdout (snd (cleanup E self w)) = stdout w
  ∧ ∀ p, p ≠ db_path self → (p ∈ fs (snd (cleanup E self w)) ↔ p ∈ fs w).
Proof.
  unfold cleanup. destruct (temp_file self) as [t|]; [|done].
  unfold try_except, os_unlink, mret, M_ret.
  destruct (unlink_fails E) as [x|]; [done|].
  destruct (bool_decide (db_path self ∈ fs w)); cbn [fst snd fs stdout]; [|done].
  repeat split; try done.
  - intros Hp. apply elem_of_difference in Hp. tauto.
  - intros Hp. apply elem_of_difference. split; [done|].
    by rewrite elem_of_singleton.
Qed.

Lemma setup_database_effect self w :
  match fst (setup_database E self w) with
  | Ret _ => fs (snd (setup_database E self w)) = fs w ∪ {[db_path self]}
  | Raise x =>
      fs w ⊆ fs (snd (setup_database E self w))
      ∧ ∃ e, x = Exception e
             ∧ last (stdout (snd (setup_database E self w)))
               = Some ("Database setup error: " +:+ msg e)
  end.
Proof.
  unfold setup_database, connect, create_if_missing, sqlite.
  unfold_monad.
  destruct (sqlite_fails E Connect) as [e|]; cbn.
  { split; [done|]. eexists. split; [done|]. by rewrite last_snoc. }
  destruct (sqlite_fails E CreateTable) as [e|]; cbn.
  { split; [apply union_subseteq_l|]. eexists. split; [done|]. by rewrite last_snoc. }
  destruct (sqlite_fails E Commit) as [e|]; cbn.
  { split; [apply union_subseteq_l|]. eexists. split; [done|]. by rewrite last_snoc. }
  destruct (sqlite_fails E SelectMaster) as [e|]; cbn.
  { split; [apply union_subseteq_l|]. eexists. split; [done|]. by rewrite last_snoc. }
  destruct (sqlite_fails E FetchOne) as [e|]; cbn.
  { split; [apply union_subseteq_l|]. eexists. split; [done|]. by rewrite last_snoc. }
  destruct (table_found E); cbn.
  2: { split; [apply union_subseteq_l|]. eexists. split; [done|]. by rewrite last_snoc. }
  destruct (sqlite_fails E ExitConnection) as [e|]; cbn.
  { split; [apply union_subseteq_l|]. eexists. split; [done|]. by rewrite last_snoc. }
  done.
Qed.

Lemma init_temporary w name :
  mkstemp E ".db" = inl name →
  init E None w =
  let self := Object name (Some name) in
  match setup_database E self
          (World (fs w ∪ {[name]}) (stdout w) (clock w) (launched w)) with
  | (Ret _, w2) => (Ret self, w2)
  | (Raise x, w2) => (Raise x, w2)
  end.
Proof.
  intros Hname. unfold init, named_temporary_file. rewrite Hname.
  unfold mbind, M_bind, mret, M_ret. cbn zeta.
  by destruct (setup_database E _ _) as [[[]|x] w2].
Qed.

(** X17.  A service constructed without a path owns a temporary
    database file that exists after construction; when the name was
    fresh and [os.unlink] works, [cleanup] restores the file system to
    what it was before the construction. *)
Theorem temporary_database_is_removed self w w1 :
  init E None w = (Ret self, w1) →
  unlink_fails E = None →
  db_path self ∉ fs w →
  temp_file self = Some (db_path self)
  ∧ db_path self ∈ fs w1
  ∧ fs (snd (cleanup E self w1)) = fs w.
Proof.
  destruct (mkstemp E ".db") as [name|e] eqn:Hname.
  2: { unfold init, named_temporary_file. rewrite Hname. done. }
  rewrite (init_temporary w name Hname). cbn zeta.
  set (w0 := World _ _ _ _).
  pose proof (setup_database_effect (Object name (Some name)) w0) as Hsetup.
  destruct (setup_database E (Object name (Some name)) w0) as [[[]|x] w2]; [|done].
  cbn [fst snd] in Hsetup. intros [= <- <-] Hunlink Hfresh. cbn [db_path] in *.
  assert (Hfs : fs w2 = fs w ∪ {[name]}).
  { rewrite Hsetup. subst w0. cbn [fs db_path]. apply set_eq. intros x.
    rewrite !elem_of_union. tauto. }
  split; [done|]. split.
  { rewrite Hfs. apply elem_of_union_r. by apply elem_of_singleton. }
  unfold cleanup. cbn [temp_file db_path].
  unfold try_except, os_unlink. rewrite Hunlink.
  rewrite bool_decide_eq_true_2.
  2: { rewrite Hfs. apply elem_of_union_r. by apply elem_of_singleton. }
  cbn [snd fs]. rewrite Hfs. apply set_eq. intros x.
  rewrite elem_of_difference, elem_of_union, elem_of_singleton.
  split; [tauto|]. intros Hx. split; [tauto|]. by intros ->.
Qed.

(** X18.  When a service is constructed without a path and the setup of
    the database fails, the constructor reports the error on the
    console and raises it again, and the temporary file it had created
    is still there (the caller gets no object to clean up). *)
Theorem failed_setup_leaves_temporary_file w name :
  mkstemp E ".db" = inl name →
  ((∃ s e, sqlite_fails E s = Some e) ∨ table_found E = false) →
  ∃ e, fst (init E None w) = Raise (Exception e)
       ∧ name ∈ fs (snd (init E None w))
       ∧ last (stdout (snd (init E None w))) = Some ("Database setup error: " +:+ msg e).
Proof.
  intros Hname Hfail. rewrite (init_temporary w name Hname). cbn zeta.
  set (w0 := World _ _ _ _).
  assert (Hin : name ∈ fs w0).
  { subst w0. cbn [fs]. apply elem_of_union_r. by apply elem_of_singleton. }
  pose proof (setup_database_effect (Object name (Some name)) w0) as Hsetup.
  assert (Hraises : ∀ u, fst (setup_database E (Object name (Some name)) w0) ≠ Ret u).
  { intros u. unfold setup_database, connect, create_if_missing, sqlite. unfold_monad.
    destruct (sqlite_fails E Connect) as [e1|] eqn:H1; cbn; [done|].
    destruct (sqlite_fails E CreateTable) as [e2|] eqn:H2; cbn; [done|].
    destruct (sqlite_fails E Commit) as [e3|] eqn:H3; cbn; [done|].
    destruct (sqlite_fails E SelectMaster) as [e4|] eqn:H4; cbn; [done|].
    destruct (sqlite_fails E FetchOne) as [e5|] eqn:H5; cbn; [done|].
    destruct (table_found E) eqn:H6; cbn; [|done].
    destruct (sqlite_fails E ExitConnection) as [e7|] eqn:H7; cbn; [done|].
    destruct Hfail as [(s & e & Hs)|Ht]; [|done].
    destruct s; congruence. }
  destruct (setup_database E (Object name (Some name)) w0) as [[u|x] w2]; cbn [fst snd] in *.
  - by destruct (Hraises u).
  - destruct Hsetup as (Hsub & e & -> & Hlast). exists e. repeat split; [|done].
    by apply Hsub.
Qed.
End DatabaseServiceProperties.

(** The theorem at work: after three other calls, the user is still
    answered from the cache while the network is down. *)
Lemma cached_user_is_served_without_request_witness :
  let self1 := snd (UserService.get_user string api_with_one_user
                      (UserService.init string "https://api.example.com") 1) in
  let self2 := after_calls self1
                 [GetUser api_unreachable 2;
                  CreateUser api_with_one_user ∅;
                  GetUser api_with_one_user 7] in
  UserService.get_user string api_unreachable self2 1 = (Ret (Some "John Doe"), self2).
Proof.
  cbn zeta.
  apply (cached_user_is_served_without_request api_with_one_user api_unreachable
           (UserService.init string "https://api.example.com") 1 "John Doe").
  vm_compute. reflexivity.
Defined.

(** The theorem at work on an empty disk. *)
Lemma temporary_database_is_removed_witness :
  fs (snd (DatabaseService.cleanup sqlite_works
             (DatabaseService.Object "/tmp/tmp8f2kq0zd.db" (Some "/tmp/tmp8f2kq0zd.db"))
             (snd (DatabaseService.init sqlite_works None empty_world))))
  = fs empty_world.
Proof.
  apply (temporary_database_is_removed sqlite_works
           (DatabaseService.Object "/tmp/tmp8f2kq0zd.db" (Some "/tmp/tmp8f2kq0zd.db"))
           empty_world (snd (DatabaseService.init sqlite_works None empty_world))).
  - reflexivity.
  - reflexivity.
  - apply not_elem_of_empty.
Defined.

(** The theorem at work: the disk fills up while the table is created. *)
Lemma failed_setup_leaves_temporary_file_witness :
  ∃ e, fst (DatabaseService.init sqlite_disk_full None empty_world) = Raise (Exception e)
       ∧ "/tmp/tmp8f2kq0zd.db" ∈ fs (snd (DatabaseService.init sqlite_disk_full None empty_world))
       ∧ last (stdout (snd (DatabaseService.init sqlite_disk_full None empty_world)))
         = Some ("Database setup error: " +:+ msg e).
Proof.
  apply (failed_setup_leaves_temporary_file sqlite_disk_full empty_world
           "/tmp/tmp8f2kq0zd.db").
  - reflexivity.
  - left. exists DatabaseService.CreateTable. eexists. reflexivity.
Defined.
